(** * jybstudio: the asynchronous operation layer

    A shallow embedding of [services/geminiService.ts] (the retry executor
    [withRetry], the operation poller [pollOperation], the montage analysis)
    and of the parts of [components/VideoGenerator.tsx], of the logo
    animator (in [components/Header.tsx]) and of
    [components/ImageEnhancer.tsx] that drive them, followed by the
    properties of the specification.

    Conventions of the embedding.
    - An [async] function is a state transformer over a [World]: the value a
      promise settles with is an [outcome] ([Ok] for a fulfilled promise,
      [Throw] for a rejected one).
    - JavaScript numbers that denote durations and progress values are exact
      rationals ([Q]); IEEE rounding is not modelled.
    - Strings are byte strings, read as UTF-8 where characters beyond
      ASCII matter; [toLowerCase] acts on the ASCII letters. *)

From Stdlib Require Import ZArith QArith Qminmax String Ascii List Bool Arith Lia Lqa.
From Stdlib Require Import DecimalString.
Import ListNotations.

Local Open Scope string_scope.

(** ** The fragment of JavaScript values the code inspects *)

Module JS.

(** The values found in the fields [status] and [code] of a failure:
    absent, an integer, or a string. *)
Inductive jsval : Type :=
| JUndefined
| JNum (n : Z)
| JStr (s : string).

(** Truthiness, as used by [a || b]. *)
Definition truthy (v : jsval) : bool :=
  match v with
  | JUndefined => false
  | JNum n => negb (n =? 0)%Z
  | JStr s => negb (s =? EmptyString)
  end.

(** [a || b] on values. *)
Definition or_else (a b : jsval) : jsval := if truthy a then a else b.

(** [v.toString()] for a string or an integer; the integers stand for
    the numbers below 10^21 in absolute value, which JavaScript prints
    digit by digit (HTTP statuses and error codes are such numbers). *)
Definition toString (v : jsval) : string :=
  match v with
  | JUndefined => "undefined"
  | JNum n => NilZero.string_of_int (Z.to_int n)
  | JStr s => s
  end.

Definition lower_ascii (c : ascii) : ascii :=
  let n := nat_of_ascii c in
  if (65 <=? n)%nat && (n <=? 90)%nat then ascii_of_nat (n + 32) else c.

(** [s.toLowerCase()]. *)
Fixpoint toLowerCase (s : string) : string :=
  match s with
  | EmptyString => EmptyString
  | String c s' => String (lower_ascii c) (toLowerCase s')
  end.

(** [s.includes(sub)]. *)
Fixpoint includes (s sub : string) : bool :=
  String.prefix sub s ||
  match s with
  | EmptyString => false
  | String _ s' => includes s' sub
  end.

(** [s || d] on an optional string. *)
Definition str_or (s : option string) (d : string) : string :=
  match s with
  | Some x => if x =? EmptyString then d else x
  | None => d
  end.

(** A thrown object, reduced to the fields the code reads:
    [name], [message], [status], [code] and [error.code]. *)
Record JsError : Type := mkJsError {
  name : string;
  message : option string;
  status : jsval;
  code : jsval;
  error_code : jsval
}.

(** [new Error(msg)]. *)
Definition newError (msg : string) : JsError :=
  {| name := "Error"; message := Some msg;
     status := JUndefined; code := JUndefined; error_code := JUndefined |}.

(** What a [throw] carries: an object, or [undefined]. *)
Inductive thrown : Type :=
| Undefined
| Exn (e : JsError).

(** [error?.message], [error?.status], [error?.code], [error?.error?.code]. *)
Definition message_of (x : thrown) : option string :=
  match x with Exn e => message e | Undefined => None end.
Definition status_of (x : thrown) : jsval :=
  match x with Exn e => status e | Undefined => JUndefined end.
Definition code_of (x : thrown) : jsval :=
  match x with Exn e => code e | Undefined => JUndefined end.
Definition error_code_of (x : thrown) : jsval :=
  match x with Exn e => error_code e | Undefined => JUndefined end.

(** The settlement of a promise. *)
Inductive outcome (T : Type) : Type :=
| Ok (v : T)
| Throw (x : thrown).
Arguments Ok {T} v.
Arguments Throw {T} x.

End JS.
Import JS.

(** ** The runtime: clock, timers, [Math.random] and the abort signal *)

Module Runtime.

(** What an execution leaves behind, newest first. *)
Inductive event : Type :=
| EvCall                    (* [withRetry] invoked the wrapped action *)
| EvSleep (ms : Q)          (* [await sleep(ms)] ran to completion *)
| EvRequest (api : string)  (* a call to the remote service was issued *)
| EvFetch (url : string)    (* an HTTP GET was issued *)
| EvProgress (p : Q).       (* a handler called [setProgress(p)] *)

Record World (E : Type) : Type := mkWorld {
  env : E;                  (* the state the actions read and write *)
  clock : Q;                (* milliseconds elapsed *)
  abortAt : option Q;       (* when [controller.abort()] is called *)
  randoms : nat -> Q;       (* the successive results of [Math.random()] *)
  drawn : nat;              (* how many of them were consumed *)
  trace : list event
}.
Arguments mkWorld {E}.
Arguments env {E}.
Arguments clock {E}.
Arguments abortAt {E}.
Arguments randoms {E}.
Arguments drawn {E}.
Arguments trace {E}.

Section WithEnv.
Context {E : Type}.

Definition set_env (e : E) (w : World E) : World E :=
  mkWorld e (clock w) (abortAt w) (randoms w) (drawn w) (trace w).

Definition log (ev : event) (w : World E) : World E :=
  mkWorld (env w) (clock w) (abortAt w) (randoms w) (drawn w) (ev :: trace w).

(** [signal.aborted], read at the current instant. *)
Definition aborted (w : World E) : bool :=
  match abortAt w with
  | Some t => Qle_bool t (clock w)
  | None => false
  end.

(** [const sleep = (ms) => new Promise(resolve => setTimeout(resolve, ms))]:
    the promise resolves after [ms]; nothing can settle it earlier. *)
Definition sleep (ms : Q) (w : World E) : World E :=
  mkWorld (env w) (clock w + ms) (abortAt w) (randoms w) (drawn w)
          (EvSleep ms :: trace w).

(** [Math.random()]. *)
Definition random (w : World E) : Q * World E :=
  (randoms w (drawn w),
   mkWorld (env w) (clock w) (abortAt w) (randoms w) (S (drawn w)) (trace w)).

(** [Math.random()] returns a number in [0, 1). *)
Definition random_ok (w : World E) : Prop :=
  forall n, 0 <= randoms w n /\ randoms w n < 1.

(** Events in chronological order. *)
Definition history (w : World E) : list event := rev (trace w).

Definition is_call (ev : event) : bool :=
  match ev with EvCall => true | _ => false end.
Definition is_sleep (ev : event) : bool :=
  match ev with EvSleep _ => true | _ => false end.
Definition is_network (ev : event) : bool :=
  match ev with EvRequest _ | EvFetch _ => true | _ => false end.

Definition calls (w : World E) : nat := length (filter is_call (trace w)).
Definition sleeps (w : World E) : nat := length (filter is_sleep (trace w)).
Definition network_calls (w : World E) : nat :=
  length (filter is_network (trace w)).

End WithEnv.

(** An asynchronous zero-argument function. *)
Definition action (E T : Type) : Type := World E -> outcome T * World E.

(** An action that only reads and writes the environment. *)
Definition lift {E T : Type} (f : E -> outcome T * E) : action E T :=
  fun w => let (r, e') := f (env w) in (r, set_env e' w).

End Runtime.
Import Runtime.

(** ** services/geminiService.ts *)

Module GeminiService.

(** The test of [withRetry] on a caught failure:
    [code === "429" || status.includes("429") || message.includes("quota")]
    with [message], [status] and [code] computed as in the source. *)
Definition retry_message (x : thrown) : string :=
  toLowerCase (str_or (message_of x) EmptyString).
Definition retry_status (x : thrown) : string :=
  toLowerCase (toString (or_else (status_of x) (JStr EmptyString))).
Definition retry_code (x : thrown) : string :=
  toString (or_else (code_of x) (or_else (error_code_of x) (JStr EmptyString))).

Definition isRateLimited (x : thrown) : bool :=
  (retry_code x =? "429")
  || includes (retry_status x) "429"
  || includes (retry_message x) "quota".

(** [Math.pow(2, i) * 5000 + Math.random() * 3000], with [r] the result of
    [Math.random()]. The sum is exact here; in doubles it is rounded to the
    nearest, so that a delay may reach [2^i * 5000 + 3000] and never exceeds
    it: the bounds on delays are stated as non-strict ones. *)
Definition backoff_base (i : nat) : Q := inject_Z (2 ^ Z.of_nat i) * 5000.
Definition waitTime (i : nat) (r : Q) : Q := backoff_base i + r * 3000.

Section WithRetry.
Context {E T : Type}.

(** The [for] loop of [withRetry]: [i] is the loop counter, [left] the
    number of iterations still allowed ([maxRetries - i]), [lastError]
    the variable of that name ([Undefined] until it is assigned).
    Each [await fn()] is recorded as an [EvCall]. *)
Fixpoint retry_loop (fn : action E T) (maxRetries : nat)
         (left i : nat) (lastError : thrown) (w : World E)
  : outcome T * World E :=
  match left with
  | O => (Throw lastError, w)
  | S left' =>
      match fn (log EvCall w) with
      | (Ok v, w1) => (Ok v, w1)
      | (Throw error, w1) =>
          if isRateLimited error && (i <? maxRetries - 1)%nat then
            let (r, w2) := random w1 in
            let w3 := sleep (waitTime i r) w2 in
            retry_loop fn maxRetries left' (S i) error w3
          else (Throw error, w1)
      end
  end.

Definition withRetry (fn : action E T) (maxRetries : nat) : action E T :=
  fun w => retry_loop fn maxRetries maxRetries 0 Undefined w.

(** [maxRetries = 7]. *)
Definition defaultRetries : nat := 7.

End WithRetry.

(** The remote long-running job, reduced to the fields the client reads:
    [done], [error] (with its [message]) and
    [response?.generatedVideos?.[0]?.video?.uri]. *)
Record OperationError : Type := mkOperationError {
  error_message : option string
}.

Record Operation : Type := mkOperation {
  done : bool;
  error : option OperationError;
  uri : option string
}.

(** The request of [ai.models.generateVideos]. *)
Record VideoRequest : Type := mkVideoRequest {
  model : string;
  request_prompt : string;
  image : option (string * string);
  numberOfVideos : nat;
  request_resolution : string;
  aspectRatio : string
}.

(** A part of the contents of [ai.models.generateContent]. *)
Inductive Part : Type :=
| InlineData (data mimeType : string)
| Text (text : string).

Record MontageSegment : Type := mkMontageSegment {
  start_timestamp : string;
  end_timestamp : string;
  visual_description : string
}.

(** The response of [ai.models.generateContent], reduced to [text]. *)
Record ContentResponse : Type := mkContentResponse {
  response_text : option string
}.

Section Service.
Context {E : Type}.

(** The remote service, as the SDK exposes it. *)
Variable generateVideos : VideoRequest -> action E Operation.
Variable getVideosOperation : Operation -> action E Operation.
Variable generateContent : string -> list Part -> action E ContentResponse.

(** [JSON.parse] at the type of the montage schema, an array of segments
    (the type the function declares for its result); [None] is a
    [SyntaxError]. *)
Variable JSON_parse : string -> option (list MontageSegment).

Definition videoModel (resolution : string) : string :=
  if resolution =? "1080p" then "veo-3.1-generate-preview"
  else "veo-3.1-fast-generate-preview".

Definition generateVideo (prompt style orientation resolution : string)
  : action E Operation :=
  withRetry
    (generateVideos
       {| model := videoModel resolution;
          request_prompt :=
            "
        CRITICAL PRODUCTION DIRECTIVE: 
        THE RESULTING VIDEO MUST BE EXACTLY 5 SECONDS LONG.
        Style: " ++ style ++ ". 
        Subject: " ++ prompt ++ ".
      ";
          image := None;
          numberOfVideos := 1;
          request_resolution := resolution;
          aspectRatio := orientation |})
    defaultRetries.

Definition remedyVideo (prompt : string) : action E Operation :=
  withRetry
    (generateVideos
       {| model := "veo-3.1-fast-generate-preview";
          request_prompt :=
            "CINEMATIC REMEDY TASK: " ++ prompt
            ++ ". Reconstruct sequence with full visual integrity, removing unwanted elements.";
          image := None;
          numberOfVideos := 1;
          request_resolution := "720p";
          aspectRatio := "16:9" |})
    defaultRetries.

(** The contents sent by [analyzeVideoForMontage]: one inline part per
    clip ([data], [mimeType]), then the instruction. *)
Definition montageContents (clips : list (string * string)) : list Part :=
  let parts := map (fun c => InlineData (fst c) (snd c)) clips in
  parts ++ [Text "Analyze these video clips and identify cinematic highlights. Return a list of segments with start_timestamp, end_timestamp, and visual_description in JSON format."].

(** The body of the action of [analyzeVideoForMontage]: the request, then
    the [try]/[catch] around [JSON.parse]. *)
Definition analyzeOnce (clips : list (string * string))
  : action E (list MontageSegment) :=
  fun w =>
    match generateContent "gemini-3-pro-preview" (montageContents clips) w with
    | (Throw x, w1) => (Throw x, w1)
    | (Ok response, w1) =>
        let jsonStr := str_or (response_text response) "[]" in
        match JSON_parse jsonStr with
        | Some segments => (Ok segments, w1)
        | None => (Ok [], w1)
        end
    end.

Definition analyzeVideoForMontage (clips : list (string * string))
  : action E (list MontageSegment) :=
  withRetry (analyzeOnce clips) defaultRetries.

(** [pollOperation(operation, signal)]. The signal is the one of the world
    (a call without a signal is a world whose [abortAt] is [None]). The
    [while] loop may run forever: [fuel] bounds the number of iterations,
    and [None] means that it was not enough. *)
Fixpoint pollOperation (fuel : nat) (currentOp : Operation) (w : World E)
  : option (outcome Operation * World E) :=
  if done currentOp then
    match error currentOp with
    | Some payload =>
        Some (Throw (Exn (newError
                (str_or (error_message payload) "Generation failed"))), w)
    | None => Some (Ok currentOp, w)
    end
  else
    match fuel with
    | O => None
    | S fuel' =>
        if aborted w then Some (Throw (Exn (newError "AbortError")), w)
        else
          let w1 := sleep 10000 w in
          match withRetry (getVideosOperation currentOp) defaultRetries w1 with
          | (Ok op, w2) => pollOperation fuel' op w2
          | (Throw x, w2) => Some (Throw x, w2)
          end
    end.

End Service.

End GeminiService.
Import GeminiService.


(** ** The browser side shared by the components *)

Module Browser.

(** [a < b] on numbers. *)
Definition Qlt_bool (a b : Q) : bool := negb (Qle_bool b a).

(** The response of [fetch], reduced to what the handlers read. *)
Record Response : Type := mkResponse {
  status_code : Z;
  statusText : string;
  body : string
}.

(** [response.ok]: the status is in the range 200-299. *)
Definition ok (r : Response) : bool :=
  (200 <=? status_code r)%Z && (status_code r <=? 299)%Z.

(** The environment of a component: its React state [U], the state [R] of
    the remote side, [process.env.API_KEY], and whether [window.aistudio]
    exists. *)
Record App (U R : Type) : Type := mkApp {
  ui : U;
  remote : R;
  apiKey : string;
  aistudio : bool
}.
Arguments mkApp {U R}.
Arguments ui {U R}.
Arguments remote {U R}.
Arguments apiKey {U R}.
Arguments aistudio {U R}.

Section WithApp.
Context {U R : Type}.

Definition set_ui (u : U) (a : App U R) : App U R :=
  mkApp u (remote a) (apiKey a) (aistudio a).
Definition set_remote (r : R) (a : App U R) : App U R :=
  mkApp (ui a) r (apiKey a) (aistudio a).

(** A state setter of React applied to the world. *)
Definition update_ui (f : U -> U) (w : World (App U R)) : World (App U R) :=
  set_env (set_ui (f (ui (env w))) (env w)) w.

(** A call of the SDK: the request is issued, the remote side answers. *)
Definition remote_call {T : Type} (api : string)
           (serve : R -> outcome T * R) : action (App U R) T :=
  fun w =>
    let w1 := log (EvRequest api) w in
    let (r, s) := serve (remote (env w1)) in
    (r, set_env (set_remote s (env w1)) w1).

(** The rejection of [fetch] on an aborted signal (a [DOMException]). *)
Definition abortError : JsError :=
  {| name := "AbortError"; message := Some "signal is aborted without reason";
     status := JUndefined; code := JUndefined; error_code := JUndefined |}.

(** [fetch(url, { signal })]: rejected without a request when the signal is
    aborted, otherwise answered by the remote side. *)
Definition fetch (http : string -> R -> outcome Response * R) (url : string)
  : action (App U R) Response :=
  fun w =>
    if aborted w then (Throw (Exn abortError), w)
    else
      let w1 := log (EvFetch url) w in
      let (r, s) := http url (remote (env w1)) in
      (r, set_env (set_remote s (env w1)) w1).

End WithApp.

(** [String(err)] for an error object ([Error.prototype.toString]). *)
Definition errorToString (e : JsError) : string :=
  let msg := match message e with Some m => m | None => EmptyString end in
  if name e =? EmptyString then msg
  else if msg =? EmptyString then name e
  else name e ++ ": " ++ msg.

(** [err.message === s]. *)
Definition message_is (e : JsError) (s : string) : bool :=
  match message e with Some m => m =? s | None => false end.

(** The white space that [trim()] strips, on strings read as UTF-8: the
    one-byte characters U+0009 to U+000D and U+0020, *)
Definition is_space (c : ascii) : bool :=
  let n := nat_of_ascii c in
  ((9 <=? n)%nat && (n <=? 13)%nat) || (n =? 32)%nat.

(** the two-byte character U+00A0, *)
Definition is_nbsp (c1 c2 : ascii) : bool :=
  (nat_of_ascii c1 =? 194)%nat && (nat_of_ascii c2 =? 160)%nat.

(** and the three-byte characters U+1680, U+2000 to U+200A, U+2028,
    U+2029, U+202F, U+205F, U+3000 and U+FEFF. *)
Definition is_wide_space (c1 c2 c3 : ascii) : bool :=
  let n1 := nat_of_ascii c1 in
  let n2 := nat_of_ascii c2 in
  let n3 := nat_of_ascii c3 in
  ((n1 =? 225)%nat && (n2 =? 154)%nat && (n3 =? 128)%nat)
  || ((n1 =? 226)%nat && (n2 =? 128)%nat
      && (((128 <=? n3)%nat && (n3 <=? 138)%nat)
          || (n3 =? 168)%nat || (n3 =? 169)%nat || (n3 =? 175)%nat))
  || ((n1 =? 226)%nat && (n2 =? 129)%nat && (n3 =? 159)%nat)
  || ((n1 =? 227)%nat && (n2 =? 128)%nat && (n3 =? 128)%nat)
  || ((n1 =? 239)%nat && (n2 =? 187)%nat && (n3 =? 191)%nat).

(** [!s.trim()]: the string holds white space only. *)
Fixpoint blank (s : string) : bool :=
  match s with
  | EmptyString => true
  | String c1 s1 =>
      if is_space c1 then blank s1
      else
        match s1 with
        | EmptyString => false
        | String c2 s2 =>
            if is_nbsp c1 c2 then blank s2
            else
              match s2 with
              | EmptyString => false
              | String c3 s3 =>
                  if is_wide_space c1 c2 c3 then blank s3 else false
              end
        end
  end.

(** The [TypeError] of a property read on [undefined]. *)
Definition typeError : JsError :=
  {| name := "TypeError";
     message := Some "Cannot read properties of undefined (reading 'name')";
     status := JUndefined; code := JUndefined; error_code := JUndefined |}.

End Browser.
Import Browser.

(** ** components/VideoGenerator.tsx *)

Module VideoGenerator.

Record UI : Type := mkUI {
  prompt : string;
  style : string;
  orientation : string;
  resolution : string;
  isGenerating : bool;
  videoUrl : option string;
  statusMessage : string;
  progress : Q;
  error : option string
}.

Definition with_isGenerating (b : bool) (u : UI) : UI :=
  mkUI (prompt u) (style u) (orientation u) (resolution u) b
       (videoUrl u) (statusMessage u) (progress u) (error u).
Definition with_videoUrl (v : option string) (u : UI) : UI :=
  mkUI (prompt u) (style u) (orientation u) (resolution u) (isGenerating u)
       v (statusMessage u) (progress u) (error u).
Definition with_statusMessage (m : string) (u : UI) : UI :=
  mkUI (prompt u) (style u) (orientation u) (resolution u) (isGenerating u)
       (videoUrl u) m (progress u) (error u).
Definition with_progress (p : Q) (u : UI) : UI :=
  mkUI (prompt u) (style u) (orientation u) (resolution u) (isGenerating u)
       (videoUrl u) (statusMessage u) p (error u).
Definition with_error (e : option string) (u : UI) : UI :=
  mkUI (prompt u) (style u) (orientation u) (resolution u) (isGenerating u)
       (videoUrl u) (statusMessage u) (progress u) e.

(** The callback of the interval started while [isGenerating]; [r] is the
    result of [Math.random()]. *)
Definition tick (prev r : Q) : Q :=
  if Qlt_bool prev 90 then prev + r * (3 # 2)
  else if Qlt_bool prev 98 then prev + r * (1 # 10)
  else prev.

(** The estimate after the interval fired once for each element of [rs],
    starting from [p] (the effect starts it with [setProgress(0)]). *)
Definition ticks (rs : list Q) (p : Q) : Q := fold_left tick rs p.

Section Handlers.
Context {R : Type}.

(** The remote side: submission, poll and artifact download. *)
Variable serve_generateVideos : VideoRequest -> R -> outcome Operation * R.
Variable serve_getVideosOperation : Operation -> R -> outcome Operation * R.
Variable http : string -> R -> outcome Response * R.

(** [JSON.stringify(err)]. *)
Variable JSON_stringify : JsError -> string.

(** The world of the component. *)
Let W : Type := World (App UI R).

Definition setIsGenerating (b : bool) (w : W) : W :=
  update_ui (with_isGenerating b) w.
Definition setVideoUrl (v : option string) (w : W) : W :=
  update_ui (with_videoUrl v) w.
Definition setStatusMessage (m : string) (w : W) : W :=
  update_ui (with_statusMessage m) w.
Definition setError (e : option string) (w : W) : W :=
  update_ui (with_error e) w.
Definition setProgress (p : Q) (w : W) : W :=
  log (EvProgress p) (update_ui (with_progress p) w).

Definition generateVideos : VideoRequest -> action (App UI R) Operation :=
  fun req => remote_call "generateVideos" (serve_generateVideos req).
Definition getVideosOperation : Operation -> action (App UI R) Operation :=
  fun op => remote_call "getVideosOperation" (serve_getVideosOperation op).

(** The action handed to [withRetry] for the download of the artifact. *)
Definition download (downloadLink : string) : action (App UI R) string :=
  fun w =>
    let apiKey := apiKey (env w) in
    match fetch http (downloadLink ++ "&key=" ++ apiKey) w with
    | (Throw x, w1) => (Throw x, w1)
    | (Ok response, w1) =>
        if negb (ok response) then
          if (status_code response =? 429)%Z then
            (Throw (Exn (newError "429")),
             setStatusMessage "Pending (Quota)..." w1)
          else
            (Throw (Exn (newError ("Download failed: " ++ statusText response))),
             w1)
        else (Ok (body response), w1)
    end.

(** The classification of the [catch] block. *)
Inductive FailureKind : Type :=
| Cancelled
| AuthRequired
| QuotaExhausted
| Fatal.

Definition classify (err : JsError) : FailureKind :=
  if (name err =? "AbortError") || message_is err "AbortError" then Cancelled
  else
    let errStr :=
      toLowerCase (JSON_stringify err) ++ toLowerCase (errorToString err) in
    if includes errStr "requested entity was not found"
       || message_is err "RETRY_KEY_SELECTION" then AuthRequired
    else if includes errStr "429" || includes errStr "resource_exhausted"
            || message_is err "DAILY_QUOTA_EXHAUSTED" then QuotaExhausted
    else Fatal.

(** The [catch] block of [handleGenerate]. *)
Definition handleCaught (err : JsError) (w : W) : W :=
  match classify err with
  | Cancelled => setStatusMessage "Cancelled." w
  | AuthRequired =>
      let w1 :=
        setError (Some "Key sync required. Studio authorization starting...") w in
      if aistudio (env w1) then
        setError (Some "Sync complete. Please restart.")
                 (log (EvRequest "openSelectKey") w1)
      else w1
  | QuotaExhausted =>
      setError (Some "Quota Exhausted. Please wait or check settings.") w
  | Fatal =>
      setError (Some (str_or (message err) "An unexpected error occurred.")) w
  end.

(** The [finally] block (the reset of [abortControllerRef], which no
    property reads, is left out). *)
Definition finally (w : W) : W :=
  setStatusMessage EmptyString (setIsGenerating false w).

(** [catch] then [finally]; reading [err.name] of [undefined] throws. *)
Definition caught (x : thrown) (w : W) : outcome unit * W :=
  match x with
  | Exn err => (Ok tt, finally (handleCaught err w))
  | Undefined => (Throw (Exn typeError), finally w)
  end.

(** The four state updates that open [handleGenerate]. *)
Definition prologue (w : W) : W :=
  setError None
    (setVideoUrl None
       (setStatusMessage "Initializing..." (setIsGenerating true w))).

(** The three awaited steps of the [try] block, each with the state
    updates that precede it: the submission, the poll, the download. *)
Definition submit (w : W) : outcome Operation * W :=
  let u := ui (env w) in
  generateVideo generateVideos
    (prompt u) (style u) (orientation u) (resolution u) (prologue w).

Definition poll (fuel : nat) (op : Operation) (w : W)
  : option (outcome Operation * W) :=
  pollOperation getVideosOperation fuel op
    (setStatusMessage "Synthesizing..." w).

Definition retrieve (downloadLink : string) (w : W) : outcome string * W :=
  withRetry (download downloadLink) defaultRetries
    (setProgress 99 (setStatusMessage "Encoding..." w)).

(** [handleGenerate]; [fuel] bounds the iterations of the poll loop. *)
Definition handleGenerate (fuel : nat) (w : W) : option (outcome unit * W) :=
  if blank (prompt (ui (env w))) then Some (Ok tt, w)
  else
    match submit w with
    | (Throw x, w1) => Some (caught x w1)
    | (Ok op, w1) =>
        match poll fuel op w1 with
        | None => None
        | Some (Throw x, w3) => Some (caught x w3)
        | Some (Ok result, w3) =>
            match uri result with
            | Some (String c l) =>
                let downloadLink := String c l in
                match retrieve downloadLink w3 with
                | (Throw x, w5) => Some (caught x w5)
                | (Ok blob, w5) =>
                    if aborted w5 then Some (Ok tt, finally w5)
                    else
                      Some (Ok tt,
                            finally (setProgress 100
                                       (setVideoUrl (Some blob) w5)))
                end
            | _ =>
                Some (caught
                        (Exn (newError
                           "Generation complete, but no video data was found."))
                        w3)
            end
        end
    end.

End Handlers.

End VideoGenerator.

(** ** The logo animator (components/Header.tsx) *)

Module LogoAnimator.

(** The callback of the interval started while [isGenerating]. *)
Definition tick (prev r : Q) : Q :=
  if Qlt_bool prev 90 then prev + r * (3 # 2)
  else if Qlt_bool prev 98 then prev + r * (1 # 10)
  else prev.

Definition ticks (rs : list Q) (p : Q) : Q := fold_left tick rs p.

End LogoAnimator.

(** ** components/ImageEnhancer.tsx *)

Module ImageEnhancer.

Section Handlers.
Context {U R : Type}.
Variable http : string -> R -> outcome Response * R.

(** The action handed to [withRetry] by [handleRemedy] for the download of
    the repaired video: the response is read whatever its status. *)
Definition download (downloadLink : string) : action (App U R) string :=
  fun w =>
    let apiKey := apiKey (env w) in
    match fetch http (downloadLink ++ "&key=" ++ apiKey) w with
    | (Throw x, w1) => (Throw x, w1)
    | (Ok res, w1) => (Ok (body res), w1)
    end.

End Handlers.

End ImageEnhancer.

(** ** Vocabulary of the properties *)

Module Props.

Section Invocations.
Context {E T : Type}.
Variable f : E -> outcome T * E.

(** The environment in which the invocation of index [n] (from 0) of an
    action runs, when its first invocation runs in [e]. *)
Fixpoint env_at (e : E) (n : nat) : E :=
  match n with
  | O => e
  | S n' => env_at (snd (f e)) n'
  end.

(** The settlement of the invocation of index [n]. *)
Definition outcome_at (e : E) (n : nat) : outcome T := fst (f (env_at e n)).

(** The first [k] invocations fail with a failure that [withRetry] retries. *)
Definition rate_limited_until (e : E) (k : nat) : Prop :=
  forall j, (j < k)%nat ->
    exists x, outcome_at e j = Throw x /\ isRateLimited x = true.

End Invocations.

(** The events, in chronological order, of [k] failed attempts each followed
    by its backoff sleep; the first one has index [i] and uses the random
    number of index [d]. *)
Fixpoint backoff_events (rnd : nat -> Q) (d i k : nat) : list event :=
  match k with
  | O => []
  | S k' =>
      EvCall :: EvSleep (waitTime i (rnd d))
             :: backoff_events rnd (S d) (S i) k'
  end.

Definition set_abortAt {E : Type} (a : option Q) (w : World E) : World E :=
  mkWorld (env w) (clock w) a (randoms w) (drawn w) (trace w).

Definition is_progress (ev : event) : bool :=
  match ev with EvProgress _ => true | _ => false end.

(** The values a handler gave to [setProgress], newest first. *)
Definition progress_set {E : Type} (w : World E) : list event :=
  filter is_progress (trace w).

(** The delay of the specification for a cap [cap]:
    [min(cap, 2^i * 5000)] plus the jitter. *)
Definition spec_delay (cap : Q) (i : nat) (r : Q) : Q :=
  Qmin cap (inject_Z (2 ^ Z.of_nat i) * 5000) + r * 3000.

(** The remote job, polled from [op] in remote state [e], stays pending
    for [n] polls, each answered by the service, and is then [done]: the
    last answer is [op'] and the remote state [e']. *)
Inductive polls_until_done {E : Type}
          (serve : Operation -> E -> outcome Operation * E)
  : Operation -> E -> nat -> Operation -> E -> Prop :=
| polls_done (op : Operation) (e : E) :
    done op = true -> polls_until_done serve op e 0 op e
| polls_step (op : Operation) (e : E) (op1 : Operation) (e1 : E)
             (n : nat) (op' : Operation) (e' : E) :
    done op = false ->
    serve op e = (Ok op1, e1) ->
    polls_until_done serve op1 e1 n op' e' ->
    polls_until_done serve op e (S n) op' e'.

(** The events of [n] iterations of the poll loop when every poll is
    answered at once: the fixed sleep, then one invocation by [withRetry]. *)
Fixpoint poll_events (n : nat) : list event :=
  match n with
  | O => []
  | S n' => EvSleep 10000 :: EvCall :: poll_events n'
  end.

(** The range of [Math.random()]. *)
Definition unit_interval (r : Q) : Prop := 0 <= r /\ r < 1.

(** The backoff policy in the words of the specification, for a budget of
    [maxRetries] attempts and a cap [cap]: for every attempt index [i] within
    the budget (a sleep follows attempt [i] only when [i < maxRetries - 1])
    the delay is [min(cap, 2^i * 5000)] plus a jitter in [0, 3000), it is at
    most [cap + 3000], and its jitter-free part does not decrease. *)
Definition spec_backoff_for (maxRetries : nat) (cap : Q) : Prop :=
  forall (i : nat) (r : Q),
    (i < maxRetries - 1)%nat ->
    unit_interval r ->
    waitTime i r == spec_delay cap i r
    /\ (0 <= r * 3000 /\ r * 3000 < 3000)
    /\ waitTime i r <= cap + 3000
    /\ backoff_base i <= backoff_base (S i).

(** An action that never calls [setProgress]. *)
Definition quiet {E T : Type} (fn : action E T) : Prop :=
  forall w, progress_set (snd (fn w)) = progress_set w.

End Props.
Import Props.

(** ** Scenarios on which the properties are exercised *)

Module Scenarios.

(** A rate-limit failure of the SDK (HTTP status 429). *)
Definition tooManyRequests : JsError :=
  {| name := "ApiError"; message := Some "Too Many Requests";
     status := JNum 429; code := JUndefined; error_code := JUndefined |}.

(** An action that fails [n] times with [tooManyRequests], then succeeds
    with [v]; the environment counts its invocations. *)
Definition fail_then {T : Type} (n : nat) (v : T) : nat -> outcome T * nat :=
  fun c =>
    (if (c <? n)%nat then Throw (Exn tooManyRequests) else Ok v, S c).

(** A world at time 0 in which [Math.random()] always returns 1/2 and the
    user aborts at [a]. *)
Definition start {E : Type} (e : E) (a : option Q) : World E :=
  mkWorld e 0 a (fun _ => 1 # 2) 0 [].

Definition pending : Operation :=
  {| done := false; error := None; uri := None |}.
Definition finished : Operation :=
  {| done := true; error := None; uri := Some "https://x/y" |}.
Definition failed : Operation :=
  {| done := true;
     error := Some {| error_message := Some "the requested entity was not found" |};
     uri := None |}.

(** A remote job that answers [pending] to the first [n] polls and [last]
    afterwards; the remote state counts the polls. *)
Definition job (n : nat) (last : Operation)
  : Operation -> nat -> outcome Operation * nat :=
  fun _ c => (Ok (if (S c <? n)%nat then pending else last), S c).

(** A parser that accepts the empty array only. *)
Definition parse_empty_only (s : string) : option (list MontageSegment) :=
  if s =? "[]" then Some [] else None.

(** A model that answers every request with the text [t]. *)
Definition answers {E : Type} (t : option string)
  : string -> list Part -> action E ContentResponse :=
  fun _ _ w => (Ok {| response_text := t |}, w).

(** An action whose first invocation throws [e] and whose later ones
    succeed with [v]. *)
Definition throws_once {T : Type} (e : JsError) (v : T)
  : nat -> outcome T * nat :=
  fun c => (if (c =? 0)%nat then Throw (Exn e) else Ok v, S c).

(** The state of the video generator before a run. *)
Definition idle : VideoGenerator.UI :=
  {| VideoGenerator.prompt := "a red fox at dawn";
     VideoGenerator.style := "Cinematic";
     VideoGenerator.orientation := "16:9";
     VideoGenerator.resolution := "720p";
     VideoGenerator.isGenerating := false;
     VideoGenerator.videoUrl := None;
     VideoGenerator.statusMessage := EmptyString;
     VideoGenerator.progress := 0;
     VideoGenerator.error := None |}.

Definition app {R : Type} (r : R) : App VideoGenerator.UI R :=
  mkApp idle r "KEY" true.

Definition tooMany : Response :=
  {| status_code := 429; statusText := "Too Many Requests";
     body := "rate limited" |}.
Definition okResponse : Response :=
  {| status_code := 200; statusText := "OK"; body := "video-bytes" |}.

(** A server that answers 429 to the first download and 200 afterwards. *)
Definition http_429_then_ok : string -> nat -> outcome Response * nat :=
  fun _ c => (Ok (if (c =? 0)%nat then tooMany else okResponse), S c).

(** A remote side for the video generator: the submission is accepted,
    the job is done at the third poll, the download is served. *)
Definition submit_ok : VideoRequest -> nat -> outcome Operation * nat :=
  fun _ c => (Ok pending, c).
Definition http_ok : string -> nat -> outcome Response * nat :=
  fun _ c => (Ok okResponse, c).
Definition stringify_empty : JsError -> string := fun _ => "{}".

(** A remote job whose first poll is rate-limited and whose second poll
    answers [finished]. *)
Definition flaky_job : Operation -> nat -> outcome Operation * nat :=
  fun _ c =>
    (if (c =? 0)%nat then Throw (Exn tooManyRequests) else Ok finished, S c).

(** Failures as the SDK and the handlers produce them. *)
Definition quotaMessage : JsError := newError "Quota exceeded for this project".
Definition nestedCode : JsError :=
  {| name := "Error"; message := None; status := JUndefined;
     code := JUndefined; error_code := JNum 429 |}.
Definition serverError : JsError :=
  {| name := "ApiError"; message := Some "Internal error";
     status := JNum 500; code := JUndefined; error_code := JUndefined |}.

(** A server whose 403 carries a reason phrase that mentions a quota. *)
Definition quotaForbidden : Response :=
  {| status_code := 403; statusText := "Quota Exceeded"; body := EmptyString |}.
Definition http_403_then_ok : string -> nat -> outcome Response * nat :=
  fun _ c => (Ok (if (c =? 0)%nat then quotaForbidden else okResponse), S c).

(** A complete run of [handleGenerate] against that remote side. *)
Definition run_generate
  : option (outcome unit * World (App VideoGenerator.UI nat)) :=
  VideoGenerator.handleGenerate submit_ok (job 3 finished) http_ok
    stringify_empty 5 (start (app 0%nat) None).

Definition generate_result
  : outcome unit * World (App VideoGenerator.UI nat) :=
  match run_generate with
  | Some p => p
  | None => (Ok tt, start (app 0%nat) None)
  end.

End Scenarios.
Import Scenarios.

(** ** services/geminiService.ts: the image enhancement *)

Module ImageService.

(** The parameter [mode] of [enhanceImage]: ['auto'] or ['remedy']. *)
Inductive Mode : Type :=
| auto
| remedy.

(** The response of the image model, reduced to
    [candidates?.[0]?.content?.parts]. *)
Record ImageResponse : Type := mkImageResponse {
  candidate_parts : option (list Part)
}.

Definition instruction (mode : Mode) (prompt : option string) : string :=
  match mode with
  | remedy =>
      "Task: Remove watermark/logo/unwanted objects as specified. Directive: "
      ++ str_or prompt "clean removal" ++ ". Return the edited image."
  | auto =>
      "Task: Auto-enhance, sharpen, and clear the image. Directive: "
      ++ str_or prompt "professional polish" ++ ". Return the edited image."
  end.

(** The [for] loop over the parts: the data URL of the first part that
    carries [inlineData]. *)
Fixpoint firstInlineData (parts : list Part) : option string :=
  match parts with
  | [] => None
  | InlineData data mimeType :: _ =>
      Some ("data:" ++ mimeType ++ ";base64," ++ data)
  | Text _ :: rest => firstInlineData rest
  end.

Section Service.
Context {E : Type}.
Variable generateContent : string -> list Part -> action E ImageResponse.

(** The action that [enhanceImage] hands to [withRetry]. *)
Definition enhanceOnce (base64 : string) (mode : Mode) (prompt : option string)
  : action E string :=
  fun w =>
    match generateContent "gemini-2.5-flash-image"
            [InlineData base64 "image/png"; Text (instruction mode prompt)]
            w with
    | (Throw x, w1) => (Throw x, w1)
    | (Ok response, w1) =>
        match candidate_parts response with
        | None =>
            (Throw (Exn (newError "No response content from studio engine.")),
             w1)
        | Some parts =>
            match firstInlineData parts with
            | Some url => (Ok url, w1)
            | None =>
                (Throw (Exn (newError "No image data returned from model")), w1)
            end
        end
    end.

Definition enhanceImage (base64 : string) (mode : Mode) (prompt : option string)
  : action E string :=
  withRetry (enhanceOnce base64 mode prompt) defaultRetries.

End Service.

End ImageService.

(** ** components/VideoGenerator.tsx: the reset button *)

Module VideoControls.

Definition with_prompt (p : string) (u : VideoGenerator.UI) : VideoGenerator.UI :=
  VideoGenerator.mkUI p (VideoGenerator.style u) (VideoGenerator.orientation u)
    (VideoGenerator.resolution u) (VideoGenerator.isGenerating u)
    (VideoGenerator.videoUrl u) (VideoGenerator.statusMessage u)
    (VideoGenerator.progress u) (VideoGenerator.error u).

(** [handleRemove]. *)
Definition handleRemove {R : Type} (w : World (App VideoGenerator.UI R))
  : World (App VideoGenerator.UI R) :=
  VideoGenerator.setStatusMessage EmptyString
    (VideoGenerator.setError None
       (update_ui (with_prompt EmptyString)
          (VideoGenerator.setVideoUrl None w))).

End VideoControls.

(** ** components/ImageEnhancer.tsx: the state and the handlers *)

Module Studio.

(** A [File]: its name, its MIME type and its bytes. *)
Record File : Type := mkFile {
  file_name : string;
  file_type : string;
  file_bytes : string
}.

Inductive FileType : Type :=
| image
| video.

(** The state [activeMode]: ['auto'], ['remedy'] or ['video']. *)
Inductive ActiveMode : Type :=
| mode_auto
| mode_remedy
| mode_video.

(** The React state of the component; [alerts] holds the messages shown by
    [alert], newest first. *)
Record UI : Type := mkUI {
  file : option File;
  preview : option string;
  result : option string;
  prompt : string;
  loading : bool;
  progress : Q;
  activeMode : option ActiveMode;
  fileType : FileType;
  alerts : list string
}.

Definition with_file (f : option File) (u : UI) : UI :=
  mkUI f (preview u) (result u) (prompt u) (loading u) (progress u)
       (activeMode u) (fileType u) (alerts u).
Definition with_preview (p : option string) (u : UI) : UI :=
  mkUI (file u) p (result u) (prompt u) (loading u) (progress u)
       (activeMode u) (fileType u) (alerts u).
Definition with_result (r : option string) (u : UI) : UI :=
  mkUI (file u) (preview u) r (prompt u) (loading u) (progress u)
       (activeMode u) (fileType u) (alerts u).
Definition with_prompt (p : string) (u : UI) : UI :=
  mkUI (file u) (preview u) (result u) p (loading u) (progress u)
       (activeMode u) (fileType u) (alerts u).
Definition with_loading (b : bool) (u : UI) : UI :=
  mkUI (file u) (preview u) (result u) (prompt u) b (progress u)
       (activeMode u) (fileType u) (alerts u).
Definition with_progress (p : Q) (u : UI) : UI :=
  mkUI (file u) (preview u) (result u) (prompt u) (loading u) p
       (activeMode u) (fileType u) (alerts u).
Definition with_activeMode (m : option ActiveMode) (u : UI) : UI :=
  mkUI (file u) (preview u) (result u) (prompt u) (loading u) (progress u)
       m (fileType u) (alerts u).
Definition with_fileType (t : FileType) (u : UI) : UI :=
  mkUI (file u) (preview u) (result u) (prompt u) (loading u) (progress u)
       (activeMode u) t (alerts u).
Definition with_alert (m : string) (u : UI) : UI :=
  mkUI (file u) (preview u) (result u) (prompt u) (loading u) (progress u)
       (activeMode u) (fileType u) (m :: alerts u).

(** The callback of the interval started while [loading]. *)
Definition tick (prev r : Q) : Q :=
  if Qlt_bool prev 95 then prev + r * 5 else prev.

Definition ticks (rs : list Q) (p : Q) : Q := fold_left tick rs p.

(** [handleFileChange], on [e.target.files?.[0]]; the object URL of a file
    is modelled by its bytes. *)
Definition handleFileChange (selected : option File) (u : UI) : UI :=
  match selected with
  | Some f =>
      let isVideo := String.prefix "video/" (file_type f) in
      with_result None
        (with_preview (Some (file_bytes f))
           (with_file (Some f)
              (with_fileType (if isVideo then video else image) u)))
  | None => u
  end.

(** [handleRemove]. *)
Definition handleRemove (u : UI) : UI :=
  with_activeMode None
    (with_progress 0
       (with_loading false
          (with_prompt EmptyString
             (with_result None (with_preview None (with_file None u)))))).

Section Handlers.
Context {R : Type}.

(** The remote side and the helper [fileToBase64] of [utils]. *)
Variable serve_generateVideos : VideoRequest -> R -> outcome Operation * R.
Variable serve_getVideosOperation : Operation -> R -> outcome Operation * R.
Variable serve_generateContent :
  string -> list Part -> R -> outcome ImageService.ImageResponse * R.
Variable http : string -> R -> outcome Response * R.
Variable fileToBase64 : File -> outcome string.

Let W : Type := World (App UI R).

Definition setLoading (b : bool) (w : W) : W := update_ui (with_loading b) w.
Definition setActiveMode (m : option ActiveMode) (w : W) : W :=
  update_ui (with_activeMode m) w.
Definition setResult (r : option string) (w : W) : W :=
  update_ui (with_result r) w.
Definition setProgress (p : Q) (w : W) : W :=
  log (EvProgress p) (update_ui (with_progress p) w).
Definition alert (m : string) (w : W) : W := update_ui (with_alert m) w.

Definition generateVideos : VideoRequest -> action (App UI R) Operation :=
  fun req => remote_call "generateVideos" (serve_generateVideos req).
Definition getVideosOperation : Operation -> action (App UI R) Operation :=
  fun op => remote_call "getVideosOperation" (serve_getVideosOperation op).
Definition generateContent
  : string -> list Part -> action (App UI R) ImageService.ImageResponse :=
  fun m parts => remote_call "generateContent" (serve_generateContent m parts).

(** The [finally] block (without the reset of [abortControllerRef]). *)
Definition finally (w : W) : W := setActiveMode None (setLoading false w).

(** [catch] then [finally]: only a failure named "AbortError" is taken for
    a cancellation; reading [err.name] of [undefined] throws. *)
Definition caught (x : thrown) (w : W) : outcome unit * W :=
  match x with
  | Exn err =>
      if name err =? "AbortError" then (Ok tt, finally w)
      else
        (Ok tt,
         finally
           (alert ("Error: "
                   ++ str_or (message err)
                        "The studio engine encountered an issue.") w))
  | Undefined => (Throw (Exn typeError), finally w)
  end.

Definition modeOf (mode : ImageService.Mode) : ActiveMode :=
  match mode with
  | ImageService.auto => mode_auto
  | ImageService.remedy => mode_remedy
  end.

(** [handleRemedy(mode)]; [fuel] bounds the iterations of the poll loop. *)
Definition handleRemedy (mode : ImageService.Mode) (fuel : nat) (w : W)
  : option (outcome unit * W) :=
  let u := ui (env w) in
  match file u with
  | None => Some (Ok tt, w)
  | Some f =>
      let w0 :=
        setActiveMode
          (Some (match fileType u with
                 | video => mode_video
                 | image => modeOf mode
                 end))
          (setLoading true w) in
      match fileType u with
      | video =>
          match remedyVideo generateVideos (prompt u) w0 with
          | (Throw x, w1) => Some (caught x w1)
          | (Ok op, w1) =>
              match pollOperation getVideosOperation fuel op w1 with
              | None => None
              | Some (Throw x, w2) => Some (caught x w2)
              | Some (Ok resultOp, w2) =>
                  match uri resultOp with
                  | Some (String c l) =>
                      let downloadLink := String c l in
                      match withRetry (ImageEnhancer.download http downloadLink)
                              defaultRetries w2 with
                      | (Throw x, w3) => Some (caught x w3)
                      | (Ok blob, w3) =>
                          Some (Ok tt,
                                finally (setProgress 100
                                           (setResult (Some blob) w3)))
                      end
                  | _ => Some (Ok tt, finally (setProgress 100 w2))
                  end
              end
          end
      | image =>
          match fileToBase64 f with
          | Throw x => Some (caught x w0)
          | Ok base64 =>
              if aborted w0 then Some (Ok tt, finally w0)
              else
                match ImageService.enhanceImage generateContent base64 mode
                        (Some (prompt u)) w0 with
                | (Throw x, w1) => Some (caught x w1)
                | (Ok enhanced, w1) =>
                    if aborted w1 then Some (Ok tt, finally w1)
                    else
                      Some (Ok tt,
                            finally (setProgress 100
                                       (setResult (Some enhanced) w1)))
                end
          end
      end
  end.

End Handlers.

End Studio.

(** ** The montage tool: the list of clips *)

Module MontageTool.

Record ClipItem : Type := mkClipItem {
  clip_id : string;
  clip_name : string;
  clip_size : string;
  clip_file : string
}.

Record UI : Type := mkUI {
  clips : list ClipItem;
  isGenerating : bool;
  resultVideo : option string;
  analysis : list MontageSegment;
  status : string
}.

(** [handleRemoveClip(id)]. *)
Definition handleRemoveClip (id : string) (u : UI) : UI :=
  mkUI (filter (fun c => negb (clip_id c =? id)) (clips u))
       (isGenerating u) (resultVideo u) (analysis u) (status u).

(** [handleClearAll]. *)
Definition handleClearAll (u : UI) : UI :=
  mkUI [] (isGenerating u) None [] EmptyString.

End MontageTool.

(** ** Vocabulary of the further properties *)

Module MoreProps.

(** The time slept according to a list of events. *)
Fixpoint total_sleep (evs : list event) : Q :=
  match evs with
  | [] => 0
  | EvSleep ms :: rest => ms + total_sleep rest
  | _ :: rest => total_sleep rest
  end.

(** The events [withRetry] may add around a download of [url]. *)
Definition download_event (url : string) (ev : event) : Prop :=
  ev = EvCall \/ (exists ms, ev = EvSleep ms) \/ ev = EvFetch url.

(** The string made of the bytes [l]. *)
Definition bytes (l : list nat) : string :=
  fold_right (fun n s => String (ascii_of_nat n) s) EmptyString l.

(** The white-space characters and line terminators of JavaScript, each in
    its UTF-8 encoding: U+0009 to U+000D, U+0020, U+00A0, U+1680, U+2000 to
    U+200A, U+2028, U+2029, U+202F, U+205F, U+3000, U+FEFF. *)
Definition white_space : list string :=
  map bytes
    [[9]; [10]; [11]; [12]; [13]; [32]; [194; 160]; [225; 154; 128];
     [226; 128; 128]; [226; 128; 129]; [226; 128; 130]; [226; 128; 131];
     [226; 128; 132]; [226; 128; 133]; [226; 128; 134]; [226; 128; 135];
     [226; 128; 136]; [226; 128; 137]; [226; 128; 138];
     [226; 128; 168]; [226; 128; 169]; [226; 128; 175]; [226; 129; 159];
     [227; 128; 128]; [239; 187; 191]]%nat.

(** The concatenation of a list of strings. *)
Definition join (l : list string) : string :=
  fold_right String.append EmptyString l.

(** A string made of white space only. *)
Definition white_space_only (s : string) : Prop :=
  exists ws, Forall (fun c => In c white_space) ws /\ s = join ws.

End MoreProps.
Import MoreProps.

(** ** Further scenarios *)

Module MoreScenarios.

Definition notFound : Response :=
  {| status_code := 404; statusText := "Not Found"; body := "missing" |}.
Definition http_404 : string -> nat -> outcome Response * nat :=
  fun _ c => (Ok notFound, S c).

(** A job whose poll fails with a server error. *)
Definition broken_job : Operation -> nat -> outcome Operation * nat :=
  fun _ c => (Throw (Exn serverError), S c).

(** An image model that answers a remark, then the image. *)
Definition image_answer : ImageService.ImageResponse :=
  {| ImageService.candidate_parts :=
       Some [Text "Here is your image."; InlineData "QUJD" "image/png"] |}.
Definition paints {E : Type}
  : string -> list Part -> action E ImageService.ImageResponse :=
  fun _ _ w => (Ok image_answer, w).

(** A video loaded in the studio, and a remote side that accepts the
    submission. *)
Definition clip : Studio.File :=
  {| Studio.file_name := "take.mp4"; Studio.file_type := "video/mp4";
     Studio.file_bytes := "bytes" |}.
Definition blankStudio : Studio.UI :=
  {| Studio.file := None; Studio.preview := None; Studio.result := None;
     Studio.prompt := EmptyString; Studio.loading := false;
     Studio.progress := 0; Studio.activeMode := None;
     Studio.fileType := Studio.image; Studio.alerts := [] |}.
Definition studio : App Studio.UI nat :=
  mkApp (Studio.handleFileChange (Some clip) blankStudio) 0%nat "KEY" true.
Definition no_image
  : string -> list Part -> nat -> outcome ImageService.ImageResponse * nat :=
  fun _ _ c => (Ok {| ImageService.candidate_parts := None |}, c).
Definition encode (f : Studio.File) : outcome string := Ok (Studio.file_bytes f).

Definition clipA : MontageTool.ClipItem :=
  {| MontageTool.clip_id := "a1"; MontageTool.clip_name := "a.mp4";
     MontageTool.clip_size := "1.0 MB"; MontageTool.clip_file := "A" |}.
Definition clipB : MontageTool.ClipItem :=
  {| MontageTool.clip_id := "b2"; MontageTool.clip_name := "b.mp4";
     MontageTool.clip_size := "2.0 MB"; MontageTool.clip_file := "B" |}.
Definition timeline : MontageTool.UI :=
  {| MontageTool.clips := [clipA; clipB]; MontageTool.isGenerating := false;
     MontageTool.resultVideo := None; MontageTool.analysis := [];
     MontageTool.status := EmptyString |}.

(** A finished operation without a link, and the worlds of a run of the
    video generator that polls it. *)
Definition unlinked : Operation :=
  {| done := true; GeminiService.error := None; uri := None |}.
Definition submitted : World (App VideoGenerator.UI nat) :=
  snd (VideoGenerator.submit submit_ok (start (app 0%nat) None)).
Definition polled : World (App VideoGenerator.UI nat) :=
  match VideoGenerator.poll (job 1 unlinked) 5 pending submitted with
  | Some p => snd p
  | None => submitted
  end.

(** The worlds of a run of the studio on the loaded video: after the
    submission, and after the poll of a finished operation without link. *)
Definition remedied (a : option Q) : World (App Studio.UI nat) :=
  snd (remedyVideo (Studio.generateVideos submit_ok) EmptyString
         (Studio.setActiveMode (Some Studio.mode_video)
            (Studio.setLoading true (start studio a)))).
Definition remedy_polled : World (App Studio.UI nat) :=
  match pollOperation (Studio.getVideosOperation (job 1 unlinked)) 5 pending
          (remedied None) with
  | Some p => snd p
  | None => remedied None
  end.

(** A picture loaded in the studio, and an image model on the remote
    side. *)
Definition picture : Studio.File :=
  {| Studio.file_name := "shot.png"; Studio.file_type := "image/png";
     Studio.file_bytes := "AAAA" |}.
Definition gallery : App Studio.UI nat :=
  mkApp (Studio.handleFileChange (Some picture) blankStudio) 0%nat "KEY" true.
Definition serve_image
  : string -> list Part -> nat -> outcome ImageService.ImageResponse * nat :=
  fun _ _ c => (Ok image_answer, S c).

(** A model that answers one segment, and a parser that knows it. *)
Definition highlight : MontageSegment :=
  {| start_timestamp := "00:01"; end_timestamp := "00:04";
     visual_description := "sunrise" |}.
Definition parse_highlight (s : string) : option (list MontageSegment) :=
  if s =? "[]" then Some []
  else if s =? "[highlight]" then Some [highlight]
  else None.

(** A prompt made of a space, a tab, a no-break space and a line
    separator, and the video generator holding it. *)
Definition spaces : list string :=
  [" "; bytes [9]%nat; bytes [194; 160]%nat; bytes [226; 128; 168]%nat].
Definition spaced : App VideoGenerator.UI nat :=
  mkApp (VideoControls.with_prompt (join spaces) idle) 0%nat "KEY" true.

End MoreScenarios.
Import MoreScenarios.

(** * Properties *)

(** ** The retry executor *)

Section RetryFacts.
Context {E T : Type}.
Variable f : E -> outcome T * E.

Lemma rate_limited_until_shift (e : E) (k : nat) :
  rate_limited_until f e (S k) ->
  rate_limited_until f (snd (f e)) k.
Proof.
  intros H j Hj. apply (H (S j)). lia.
Qed.

Lemma rate_limited_until_head (e : E) (k : nat) :
  rate_limited_until f e (S k) ->
  exists x, fst (f e) = Throw x /\ isRateLimited x = true.
Proof.
  intros H. apply (H 0%nat). lia.
Qed.

(** A run of the loop over [k] retried failures followed by a success. *)
Lemma retry_loop_recovers (maxRetries k : nat) :
  forall (left i : nat) (lastError : thrown) (w : World E) (v : T),
    (k < left)%nat ->
    (i + left <= maxRetries)%nat ->
    rate_limited_until f (env w) k ->
    outcome_at f (env w) k = Ok v ->
    exists w',
      retry_loop (lift f) maxRetries left i lastError w = (Ok v, w')
      /\ env w' = env_at f (env w) (S k)
      /\ trace w'
         = (rev (backoff_events (randoms w) (drawn w) i k ++ [EvCall])
            ++ trace w)%list
      /\ drawn w' = (drawn w + k)%nat
      /\ randoms w' = randoms w
      /\ abortAt w' = abortAt w.
Proof.
  induction k as [|k IH]; intros left i lastError w v Hk Hi Hfail Hok.
  - destruct left as [|left]; [lia|].
    unfold outcome_at in Hok. simpl in Hok.
    simpl. unfold lift. simpl.
    destruct (f (env w)) as [r e'] eqn:Hf. simpl in Hok. subst r.
    eexists. split; [reflexivity|].
    simpl. rewrite Nat.add_0_r. repeat split; reflexivity.
  - destruct left as [|left]; [lia|].
    destruct (rate_limited_until_head _ _ Hfail) as [x [Hx Hrl]].
    apply rate_limited_until_shift in Hfail.
    assert (Hlt : (i <? maxRetries - 1)%nat = true)
      by (apply Nat.ltb_lt; lia).
    simpl retry_loop. unfold lift at 1. simpl.
    destruct (f (env w)) as [r e'] eqn:Hf. simpl in Hx. subst r.
    rewrite Hrl, Hlt. simpl.
    unfold outcome_at in Hok. simpl in Hok. rewrite Hf in Hok.
    simpl in Hok, Hfail.
    match goal with
    | |- context [retry_loop _ _ _ _ _ ?w3] =>
        destruct (IH left (S i) x w3 v) as [w' [Hrun [He [Ht [Hd [Hr Ha]]]]]]
    end; try assumption; try lia.
    exists w'. split; [exact Hrun|].
    simpl in He, Ht, Hd, Hr, Ha.
    repeat split; try assumption.
    + rewrite Ht. simpl. rewrite <- !app_assoc. reflexivity.
    + lia.
Qed.

End RetryFacts.

Lemma backoff_events_calls (rnd : nat -> Q) (k : nat) :
  forall d i, length (filter is_call (backoff_events rnd d i k)) = k.
Proof.
  induction k as [|k IH]; intros d i; simpl; [reflexivity|].
  now rewrite IH.
Qed.

Lemma backoff_events_sleeps (rnd : nat -> Q) (k : nat) :
  forall d i, length (filter is_sleep (backoff_events rnd d i k)) = k.
Proof.
  induction k as [|k IH]; intros d i; simpl; [reflexivity|].
  now rewrite IH.
Qed.

Lemma count_run (p : event -> bool) (evs t : list event) :
  length (filter p (rev (evs ++ [EvCall]) ++ t))
  = (length (filter p evs) + length (filter p [EvCall])
     + length (filter p t))%nat.
Proof.
  rewrite filter_app, length_app, filter_rev, length_rev.
  rewrite filter_app, length_app. reflexivity.
Qed.

(** C1. If the first [k] invocations of an action fail with failures that
    [withRetry] classifies as rate-limited, [k] is below the default budget
    of 7 attempts, and the next invocation succeeds, then [withRetry]
    returns that success; the action was invoked [k + 1] times, hence at
    most 7 times, and the executor slept [k] times. *)
Theorem withRetry_recovers_from_rate_limits :
  forall (E T : Type) (f : E -> outcome T * E) (w : World E) (k : nat) (v : T),
    (k < defaultRetries)%nat ->
    rate_limited_until f (env w) k ->
    outcome_at f (env w) k = Ok v ->
    exists w',
      withRetry (lift f) defaultRetries w = (Ok v, w')
      /\ calls w' = (calls w + S k)%nat
      /\ (calls w' - calls w <= defaultRetries)%nat
      /\ sleeps w' = (sleeps w + k)%nat
      /\ env w' = env_at f (env w) (S k).
Proof.
  intros E T f w k v Hk Hfail Hok.
  destruct (retry_loop_recovers f defaultRetries k defaultRetries 0 Undefined
              w v Hk (Nat.le_refl _) Hfail Hok)
    as [w' [Hrun [He [Ht _]]]].
  exists w'. split; [exact Hrun|].
  assert (Hc : calls w' = (calls w + S k)%nat).
  { unfold calls. rewrite Ht, count_run, backoff_events_calls. simpl. lia. }
  assert (Hs : sleeps w' = (sleeps w + k)%nat).
  { unfold sleeps. rewrite Ht, count_run, backoff_events_sleeps. simpl. lia. }
  repeat split; try assumption.
  rewrite Hc. unfold defaultRetries in *. lia.
Qed.

Lemma C1_witness :
  exists w',
    withRetry (lift (fail_then 2 "operation")) defaultRetries
              (start 0%nat None)
    = (Ok "operation", w')
    /\ calls w' = 3%nat
    /\ (calls w' - 0 <= defaultRetries)%nat
    /\ sleeps w' = 2%nat
    /\ env w' = 3%nat.
Proof.
  apply (withRetry_recovers_from_rate_limits
           nat string (fail_then 2 "operation") (start 0%nat None) 2
           "operation").
  - unfold defaultRetries. lia.
  - intros j Hj. exists (Exn tooManyRequests).
    destruct j as [|[|j]]; [split; reflexivity | split; reflexivity | lia].
  - reflexivity.
Defined.

(** ** The backoff delays *)

Lemma backoff_events_nth (rnd : nat -> Q) (k : nat) :
  forall d i j, (j < k)%nat ->
    nth_error (backoff_events rnd d i k) (2 * j + 1)
    = Some (EvSleep (waitTime (i + j) (rnd (d + j)%nat))).
Proof.
  induction k as [|k IH]; intros d i j Hj; [lia|].
  destruct j as [|j].
  - simpl. now rewrite !Nat.add_0_r.
  - replace (2 * S j + 1)%nat with (S (S (2 * j + 1))) by lia.
    simpl backoff_events. cbn [nth_error].
    rewrite IH by lia.
    now replace (S i + j)%nat with (i + S j)%nat by lia;
      replace (S d + j)%nat with (d + S j)%nat by lia.
Qed.

(** Every run of the loop is a series of failed attempts, each followed by
    its backoff sleep, closed by one last attempt. *)
Lemma retry_loop_shape {E T : Type} (f : E -> outcome T * E)
      (maxRetries : nat) :
  forall (left i : nat) (lastError : thrown) (w : World E),
    (0 < left)%nat ->
    (i + left = maxRetries)%nat ->
    exists k,
      (k < left)%nat
      /\ trace (snd (retry_loop (lift f) maxRetries left i lastError w))
         = (rev (backoff_events (randoms w) (drawn w) i k ++ [EvCall])
            ++ trace w)%list.
Proof.
  induction left as [|left IH]; intros i lastError w Hpos Hsum; [lia|].
  simpl retry_loop. unfold lift at 1. simpl.
  destruct (f (env w)) as [[v|x] e'].
  - exists 0%nat. split; [lia|reflexivity].
  - destruct (isRateLimited x && (i <? maxRetries - 1)%nat) eqn:Hretry.
    + apply andb_prop in Hretry. destruct Hretry as [_ Hlt].
      apply Nat.ltb_lt in Hlt. simpl.
      match goal with
      | |- context [retry_loop _ _ _ _ _ ?w3] =>
          destruct (IH (S i) x w3) as [k [Hk Ht]]
      end; try lia.
      exists (S k). split; [lia|].
      rewrite Ht. simpl. rewrite <- !app_assoc. reflexivity.
    + exists 0%nat. split; [lia|reflexivity].
Qed.

Lemma backoff_base_pos (i : nat) : 0 < backoff_base i.
Proof.
  unfold backoff_base.
  assert (H : (0 < 2 ^ Z.of_nat i)%Z) by (apply Z.pow_pos_nonneg; lia).
  unfold Qlt, Qmult, inject_Z. simpl. lia.
Qed.

Lemma backoff_base_double (i : nat) : backoff_base (S i) == 2 * backoff_base i.
Proof.
  unfold backoff_base.
  rewrite Nat2Z.inj_succ, Z.pow_succ_r by lia.
  unfold Qeq, Qmult, inject_Z. cbn [Qnum Qden].
  rewrite !Pos.mul_1_l. generalize (2 ^ Z.of_nat i)%Z. intros x. lia.
Qed.

Lemma backoff_base_lt (i : nat) : backoff_base i < backoff_base (S i).
Proof.
  pose proof (backoff_base_double i) as Hd.
  pose proof (backoff_base_pos i) as Hp.
  rewrite Hd. lra.
Qed.

Lemma backoff_base_mono (i j : nat) :
  (i <= j)%nat -> backoff_base i <= backoff_base j.
Proof.
  induction 1 as [|j Hle IH]; [lra|].
  pose proof (backoff_base_lt j). lra.
Qed.

Lemma backoff_base_5 : backoff_base 5 == 160000.
Proof. reflexivity. Qed.

(** Any cap that is at least the largest jitter-free delay of a budget fits
    that budget. *)
Lemma spec_backoff_for_cap (maxRetries : nat) (cap : Q) :
  backoff_base (maxRetries - 2) <= cap ->
  spec_backoff_for maxRetries cap.
Proof.
  intros Hcap i r Hi [Hr0 Hr1].
  assert (Hle : backoff_base i <= cap).
  { apply Qle_trans with (backoff_base (maxRetries - 2)); [|exact Hcap].
    apply backoff_base_mono. lia. }
  assert (Hmin : Qmin cap (backoff_base i) == backoff_base i)
    by (apply Q.min_r; exact Hle).
  pose proof (backoff_base_lt i) as Hlt.
  unfold spec_delay, waitTime. fold (backoff_base i). rewrite Hmin.
  split; [reflexivity|]. split; [split; lra|]. split; lra.
Qed.

(** C3. For every attempt index [i] within the retry budget, the delay
    slept before retry [i] is [min(cap, 2^i * 5000)] plus a jitter in
    [0, 3000), is at most [cap + 3000], and has a jitter-free part that
    does not decrease with [i]: with the default budget of 7 attempts for
    the cap 160000, and with any budget for any cap at least equal to its
    largest jitter-free delay. In every run of [withRetry] the sleep that
    follows the failed attempt of index [i] lasts [waitTime i r], with [i]
    within the budget and [r] the number drawn from [Math.random()]. *)
Theorem backoff_delay_is_capped_within_budget :
  spec_backoff_for defaultRetries 160000
  /\ (forall (maxRetries : nat) (cap : Q),
        backoff_base (maxRetries - 2) <= cap ->
        spec_backoff_for maxRetries cap)
  /\ (forall (E T : Type) (f : E -> outcome T * E) (maxRetries : nat)
             (w : World E),
        random_ok w ->
        (0 < maxRetries)%nat ->
        exists k,
          (k < maxRetries)%nat
          /\ history (snd (withRetry (lift f) maxRetries w))
             = (history w
                ++ backoff_events (randoms w) (drawn w) 0 k ++ [EvCall])%list
          /\ forall i, (i < k)%nat ->
               (i < maxRetries - 1)%nat
               /\ unit_interval (randoms w (drawn w + i)%nat)
               /\ nth_error (backoff_events (randoms w) (drawn w) 0 k)
                            (2 * i + 1)
                  = Some (EvSleep (waitTime i (randoms w (drawn w + i)%nat)))).
Proof.
  split; [|split].
  - apply spec_backoff_for_cap.
    change (defaultRetries - 2)%nat with 5%nat.
    rewrite backoff_base_5. lra.
  - exact spec_backoff_for_cap.
  - intros E T f maxRetries w Hrand Hpos.
    destruct (retry_loop_shape f maxRetries maxRetries 0 Undefined w Hpos
                (Nat.add_0_l _)) as [k [Hk Ht]].
    exists k. split; [exact Hk|]. split.
    + unfold history, withRetry. rewrite Ht.
      now rewrite rev_app_distr, rev_involutive.
    + intros i Hi. split; [lia|]. split; [exact (Hrand _)|].
      apply (backoff_events_nth (randoms w) k (drawn w) 0 i Hi).
Qed.

Lemma C3_witness :
  spec_backoff_for 7 160000
  /\ exists k,
       (k < 7)%nat
       /\ history (snd (withRetry (lift (fail_then 2 "operation")) 7
                          (start 0%nat None)))
          = (history (start 0%nat None)
             ++ backoff_events (fun _ => 1 # 2) 0 0 k ++ [EvCall])%list
       /\ forall i, (i < k)%nat ->
            (i < 7 - 1)%nat
            /\ unit_interval (1 # 2)
            /\ nth_error (backoff_events (fun _ => 1 # 2) 0 0 k) (2 * i + 1)
               = Some (EvSleep (waitTime i (1 # 2))).
Proof.
  split.
  - apply (proj1 (proj2 backoff_delay_is_capped_within_budget) 7%nat 160000).
    discriminate.
  - apply (proj2 (proj2 backoff_delay_is_capped_within_budget)
             nat string (fail_then 2 "operation") 7%nat (start 0%nat None)).
    + intros n. simpl. split; [discriminate | reflexivity].
    + lia.
Defined.

(** ** Cancellation and the retry executor *)

Lemma retry_loop_ignores_abort {E T : Type} (f : E -> outcome T * E)
      (maxRetries : nat) (a : option Q) :
  forall (left i : nat) (lastError : thrown) (w : World E),
    retry_loop (lift f) maxRetries left i lastError (set_abortAt a w)
    = (fst (retry_loop (lift f) maxRetries left i lastError w),
       set_abortAt a (snd (retry_loop (lift f) maxRetries left i lastError w))).
Proof.
  induction left as [|left IH]; intros i lastError w; [reflexivity|].
  simpl retry_loop. unfold lift at 1 3 5. simpl.
  destruct (f (env w)) as [[v|x] e']; [reflexivity|].
  destruct (isRateLimited x && (i <? maxRetries - 1)%nat); [|reflexivity].
  simpl.
  match goal with
  | |- _ = (fst (retry_loop _ _ _ _ _ ?w3), _) => exact (IH (S i) x w3)
  end.
Qed.

(** C4, as stated, fails: the user aborts at 1000 ms, while the executor
    sleeps its first backoff delay (from 0 to 6500 ms); the executor sleeps
    the whole delay, invokes the action again and returns its success. *)
Lemma abort_during_backoff_is_not_observed :
  let w := start 0%nat (Some 1000) in
  let run := withRetry (lift (fail_then 1 "operation")) defaultRetries w in
  aborted w = false
  /\ fst run = Ok "operation"
  /\ history (snd run) = [EvCall; EvSleep (waitTime 0 (1 # 2)); EvCall]
  /\ waitTime 0 (1 # 2) == 6500
  /\ clock (snd run) == 6500
  /\ aborted (snd run) = true.
Proof.
  vm_compute. repeat split; reflexivity.
Qed.

(** C4, amended. [withRetry] takes no cancellation token and [sleep] cannot
    be interrupted: for an action that does not consult the token itself,
    the settlement of [withRetry], its invocations and its sleeps are the
    same whenever or whether the token is aborted. *)
Theorem withRetry_ignores_abort :
  forall (E T : Type) (f : E -> outcome T * E) (maxRetries : nat)
         (a : option Q) (w : World E),
    withRetry (lift f) maxRetries (set_abortAt a w)
    = (fst (withRetry (lift f) maxRetries w),
       set_abortAt a (snd (withRetry (lift f) maxRetries w))).
Proof.
  intros. unfold withRetry. apply retry_loop_ignores_abort.
Qed.

(** ** The operation poller *)

Section PollFacts.
Context {E : Type}.
Variable getVideosOperation : Operation -> action E Operation.

(** One iteration of the loop: the token is read, then the fixed sleep, then
    the refetch through [withRetry]. *)
Lemma poll_iteration (fuel : nat) (op : Operation) (w : World E) :
  done op = false ->
  aborted w = false ->
  pollOperation getVideosOperation (S fuel) op w
  = match withRetry (getVideosOperation op) defaultRetries (sleep 10000 w) with
    | (Ok op', w2) => pollOperation getVideosOperation fuel op' w2
    | (Throw x, w2) => Some (Throw x, w2)
    end.
Proof.
  intros Hd Ha. simpl. now rewrite Hd, Ha.
Qed.

Lemma poll_settles_when_done (fuel : nat) (op : Operation) (w : World E) :
  done op = true ->
  pollOperation getVideosOperation fuel op w
  = match error op with
    | Some payload =>
        Some (Throw (Exn (newError
                (str_or (error_message payload) "Generation failed"))), w)
    | None => Some (Ok op, w)
    end.
Proof.
  intros Hd. destruct fuel; simpl; now rewrite Hd.
Qed.

(** What the poller returns is a finished operation without error. *)
Lemma poll_result_is_finished (fuel : nat) :
  forall (op : Operation) (w : World E) (result : Operation) (w' : World E),
    pollOperation getVideosOperation fuel op w = Some (Ok result, w') ->
    done result = true /\ error result = None.
Proof.
  induction fuel as [|fuel IH]; intros op w result w' H.
  - simpl in H. destruct (done op) eqn:Hd; [|discriminate].
    destruct (error op) eqn:He; inversion H; subst. now split.
  - simpl in H. destruct (done op) eqn:Hd.
    + destruct (error op) eqn:He; inversion H; subst. now split.
    + destruct (aborted w); [discriminate|].
      destruct (withRetry _ _ _) as [[op1|x] w2]; [|discriminate].
      exact (IH _ _ _ _ H).
Qed.

End PollFacts.

Lemma abortAt_None_not_aborted {E : Type} (w : World E) :
  abortAt w = None -> aborted w = false.
Proof. unfold aborted. now intros ->. Qed.

(** A complete run of the poller against a job that finishes after [n]
    polls, when nobody aborts. *)
Lemma poll_run {E : Type}
      (serve : Operation -> E -> outcome Operation * E)
      (op : Operation) (e : E) (n : nat) (op' : Operation) (e' : E) :
  polls_until_done serve op e n op' e' ->
  forall (fuel : nat) (w : World E),
    env w = e ->
    abortAt w = None ->
    (n <= fuel)%nat ->
    exists w',
      pollOperation (fun o => lift (serve o)) fuel op w
      = match error op' with
        | Some payload =>
            Some (Throw (Exn (newError
                    (str_or (error_message payload) "Generation failed"))), w')
        | None => Some (Ok op', w')
        end
      /\ env w' = e'
      /\ trace w' = (rev (poll_events n) ++ trace w)%list
      /\ clock w' == clock w + inject_Z (Z.of_nat n) * 10000
      /\ abortAt w' = None.
Proof.
  induction 1 as [op e Hd | op e op1 e1 n op' e' Hd Hserve Hrest IH];
    intros fuel w He Ha Hfuel.
  - exists w. rewrite poll_settles_when_done by exact Hd.
    split; [now destruct (error op)|].
    repeat split; try assumption.
    change (inject_Z (Z.of_nat 0)) with 0. lra.
  - destruct fuel as [|fuel]; [lia|].
    rewrite poll_iteration
      by (try exact Hd; now apply abortAt_None_not_aborted).
    unfold withRetry, defaultRetries. simpl retry_loop. unfold lift at 1.
    simpl. rewrite He, Hserve.
    match goal with
    | |- context [pollOperation _ fuel op1 ?w2] =>
        destruct (IH fuel w2) as [w' [Hrun [He' [Ht [Hc Ha']]]]]
    end; try reflexivity; try assumption; try lia.
    exists w'. split; [exact Hrun|].
    simpl in Ht, Hc.
    repeat split; try assumption.
    + rewrite Ht. simpl. rewrite <- !app_assoc. reflexivity.
    + change (Z.pos (Pos.of_succ_nat n)) with (Z.of_nat (S n)).
      rewrite Hc, Nat2Z.inj_succ. unfold Z.succ. rewrite inject_Z_plus.
      change (inject_Z 1) with 1. lra.
Qed.

Lemma polls_until_done_done {E : Type}
      (serve : Operation -> E -> outcome Operation * E)
      (op : Operation) (e : E) (n : nat) (op' : Operation) (e' : E) :
  polls_until_done serve op e n op' e' -> done op' = true.
Proof. induction 1; assumption. Qed.

(** C6. When the operation is not done and the token is already aborted as
    the poller starts, the poller fails with the abort failure
    [Error("AbortError")], which the handler classifies as a cancellation,
    and leaves the world as it found it: no sleep and no network call. *)
Theorem pollOperation_aborted_before_first_poll :
  forall (E : Type) (getVideosOperation : Operation -> action E Operation)
         (fuel : nat) (op : Operation) (w : World E),
    done op = false ->
    aborted w = true ->
    pollOperation getVideosOperation (S fuel) op w
    = Some (Throw (Exn (newError "AbortError")), w)
    /\ forall JSON_stringify,
         VideoGenerator.classify JSON_stringify (newError "AbortError")
         = VideoGenerator.Cancelled.
Proof.
  intros E getVideosOperation fuel op w Hd Ha. split.
  - simpl. now rewrite Hd, Ha.
  - intros JSON_stringify. reflexivity.
Qed.

Lemma C6_witness :
  pollOperation (fun o => lift (job 3 finished o)) 1 pending
                (start 0%nat (Some 0))
  = Some (Throw (Exn (newError "AbortError")), start 0%nat (Some 0))
  /\ forall JSON_stringify,
       VideoGenerator.classify JSON_stringify (newError "AbortError")
       = VideoGenerator.Cancelled.
Proof.
  apply (pollOperation_aborted_before_first_poll
           nat (fun o => lift (job 3 finished o)) 0 pending
           (start 0%nat (Some 0)));
    reflexivity.
Defined.

(** C7. While the operation is not done and the token is not aborted, an
    iteration of the poller sleeps 10000 ms and refetches the operation
    through [withRetry]. Against a job that is pending for [n] polls and
    then done, the poller (given fuel for [n] iterations) runs [n] times
    "sleep 10000, invoke the fetch" and settles: with the fetched operation
    when it carries no error, with a failure carrying the message of its
    error payload otherwise. *)
Theorem pollOperation_polls_until_done :
  (forall (E : Type) (getVideosOperation : Operation -> action E Operation)
          (fuel : nat) (op : Operation) (w : World E),
      done op = false ->
      aborted w = false ->
      pollOperation getVideosOperation (S fuel) op w
      = match withRetry (getVideosOperation op) defaultRetries
                (sleep 10000 w) with
        | (Ok op', w2) => pollOperation getVideosOperation fuel op' w2
        | (Throw x, w2) => Some (Throw x, w2)
        end)
  /\ (forall (E : Type) (serve : Operation -> E -> outcome Operation * E)
             (op : Operation) (n : nat) (op' : Operation) (e' : E)
             (fuel : nat) (w : World E),
         polls_until_done serve op (env w) n op' e' ->
         abortAt w = None ->
         (n <= fuel)%nat ->
         exists res w',
           pollOperation (fun o => lift (serve o)) fuel op w = Some (res, w')
           /\ done op' = true
           /\ (error op' = None -> res = Ok op')
           /\ (forall payload, error op' = Some payload ->
                 res = Throw (Exn (newError
                         (str_or (error_message payload) "Generation failed"))))
           /\ env w' = e'
           /\ history w' = (history w ++ poll_events n)%list
           /\ clock w' == clock w + inject_Z (Z.of_nat n) * 10000).
Proof.
  split.
  - intros E getVideosOperation fuel op w. apply poll_iteration.
  - intros E serve op n op' e' fuel w Hpolls Ha Hfuel.
    destruct (poll_run serve op (env w) n op' e' Hpolls fuel w
                eq_refl Ha Hfuel) as [w' [Hrun [He [Ht [Hc _]]]]].
    pose proof (polls_until_done_done _ _ _ _ _ _ Hpolls) as Hd.
    assert (Hh : history w' = (history w ++ poll_events n)%list).
    { unfold history. rewrite Ht. now rewrite rev_app_distr, rev_involutive. }
    destruct (error op') as [payload|] eqn:Herr.
    + eexists. exists w'. split; [exact Hrun|].
      repeat split; try assumption; try discriminate.
      intros p Hp. now inversion Hp.
    + eexists. exists w'. split; [exact Hrun|].
      repeat split; try assumption; try discriminate.
Qed.

Lemma job_polls_until_done :
  polls_until_done (job 3 finished) pending 0%nat 3 finished 3%nat.
Proof.
  apply (polls_step _ pending 0%nat pending 1%nat); try reflexivity.
  apply (polls_step _ pending 1%nat pending 2%nat); try reflexivity.
  apply (polls_step _ pending 2%nat finished 3%nat); try reflexivity.
  apply polls_done. reflexivity.
Qed.

Lemma C7_witness :
  pollOperation (fun o => lift (job 3 finished o)) 3 pending (start 0%nat None)
  = match withRetry (lift (job 3 finished pending)) defaultRetries
            (sleep 10000 (start 0%nat None)) with
    | (Ok op', w2) => pollOperation (fun o => lift (job 3 finished o)) 2 op' w2
    | (Throw x, w2) => Some (Throw x, w2)
    end
  /\ exists res w',
       pollOperation (fun o => lift (job 3 finished o)) 3 pending
                     (start 0%nat None)
       = Some (res, w')
       /\ res = Ok finished
       /\ history w' = poll_events 3
       /\ clock w' == 30000.
Proof.
  split.
  - apply (proj1 pollOperation_polls_until_done
             nat (fun o => lift (job 3 finished o)) 2%nat pending
             (start 0%nat None)); reflexivity.
  - destruct (proj2 pollOperation_polls_until_done
                nat (job 3 finished) pending 3%nat finished 3%nat 3%nat
                (start 0%nat None) job_polls_until_done eq_refl (Nat.le_refl 3))
      as [res [w' [Hrun [_ [Hok [_ [_ [Hh Hc]]]]]]]].
    exists res, w'. split; [exact Hrun|].
    split; [apply Hok; reflexivity|]. split; [exact Hh|]. exact Hc.
Defined.

(** C9. An operation that is already done and carries no error is returned
    at once, with the world untouched (no sleep, no network call), whatever
    the fuel and whatever the state of the token: an aborted token does not
    turn the result into a cancellation. *)
Theorem pollOperation_done_returns_immediately :
  forall (E : Type) (getVideosOperation : Operation -> action E Operation)
         (fuel : nat) (op : Operation) (w : World E),
    done op = true ->
    error op = None ->
    pollOperation getVideosOperation fuel op w = Some (Ok op, w)
    /\ (aborted w = true ->
        pollOperation getVideosOperation fuel op w
        <> Some (Throw (Exn (newError "AbortError")), w)).
Proof.
  intros E getVideosOperation fuel op w Hd He.
  assert (H : pollOperation getVideosOperation fuel op w = Some (Ok op, w))
    by (rewrite poll_settles_when_done by exact Hd; now rewrite He).
  split; [exact H|]. intros _. rewrite H. discriminate.
Qed.

Lemma C9_witness :
  aborted (start 0%nat (Some 0)) = true
  /\ pollOperation (fun o => lift (job 3 finished o)) 0 finished
                   (start 0%nat (Some 0))
     = Some (Ok finished, start 0%nat (Some 0)).
Proof.
  split; [reflexivity|].
  apply (pollOperation_done_returns_immediately
           nat (fun o => lift (job 3 finished o)) 0 finished
           (start 0%nat (Some 0)));
    reflexivity.
Defined.

(** ** The montage analysis *)

(** C10. When the model answers and the text of its response is absent,
    empty, or rejected by [JSON.parse], [analyzeVideoForMontage] settles
    with the empty list of segments, after a single invocation, instead of
    failing. *)
Theorem analyzeVideoForMontage_defaults_to_no_segment :
  forall (E : Type)
         (generateContent : string -> list Part -> action E ContentResponse)
         (JSON_parse : string -> option (list MontageSegment))
         (clips : list (string * string))
         (w : World E) (response : ContentResponse) (w1 : World E),
    JSON_parse "[]" = Some [] ->
    generateContent "gemini-3-pro-preview" (montageContents clips)
                    (log EvCall w)
    = (Ok response, w1) ->
    (response_text response = None
     \/ response_text response = Some EmptyString
     \/ exists s, response_text response = Some s /\ JSON_parse s = None) ->
    analyzeVideoForMontage generateContent JSON_parse clips w = (Ok [], w1).
Proof.
  intros E generateContent JSON_parse clips w response w1 Hempty Hgen Htext.
  unfold analyzeVideoForMontage, withRetry, defaultRetries.
  simpl retry_loop. unfold analyzeOnce at 1. rewrite Hgen.
  destruct Htext as [Ht | [Ht | [s [Ht Hs]]]]; rewrite Ht; simpl.
  - now rewrite Hempty.
  - now rewrite Hempty.
  - destruct s as [|c s]; simpl.
    + now rewrite Hempty.
    + now rewrite Hs.
Qed.

Lemma C10_witness :
  analyzeVideoForMontage (answers (Some "Sorry, no highlights."))
                         parse_empty_only [("AAAA", "video/mp4")]
                         (start 0%nat None)
  = (Ok [], log EvCall (start 0%nat None)).
Proof.
  apply (analyzeVideoForMontage_defaults_to_no_segment
           nat (answers (Some "Sorry, no highlights.")) parse_empty_only
           [("AAAA", "video/mp4")] (start 0%nat None)
           {| response_text := Some "Sorry, no highlights." |}
           (log EvCall (start 0%nat None))).
  - reflexivity.
  - reflexivity.
  - right. right. exists "Sorry, no highlights.". split; reflexivity.
Defined.

(** ** The download of the artifact *)

Section DownloadFacts.
Context {R : Type}.
Variable http : string -> R -> outcome Response * R.

(** The key is appended to the link before the request is issued, in the
    video generator and in the image enhancer alike. *)
Lemma download_appends_key (link : string)
      (w : World (App VideoGenerator.UI R)) :
  aborted w = false ->
  exists r w1,
    http (link ++ "&key=" ++ apiKey (env w)) (remote (env w)) = (r, remote (env w1))
    /\ fetch http (link ++ "&key=" ++ apiKey (env w)) w = (r, w1)
    /\ trace w1 = EvFetch (link ++ "&key=" ++ apiKey (env w)) :: trace w.
Proof.
  intros Ha. unfold fetch. rewrite Ha. simpl.
  destruct (http _ _) as [r s]. eexists. eexists.
  split; [|split; reflexivity]. reflexivity.
Qed.

(** The image enhancer reads the body whatever the status: a 429 is not a
    failure there. *)
Lemma enhancer_download_ignores_status {U : Type} (link : string)
      (w : World (App U R)) (response : Response) (s : R) :
  aborted w = false ->
  http (link ++ "&key=" ++ apiKey (env w)) (remote (env w)) = (Ok response, s) ->
  fst (withRetry (ImageEnhancer.download http link) defaultRetries w)
  = Ok (body response).
Proof.
  intros Ha Hhttp. unfold withRetry, defaultRetries. simpl retry_loop.
  unfold ImageEnhancer.download at 1, fetch.
  change (aborted (log EvCall w)) with (aborted w). rewrite Ha.
  unfold log. cbn [env]. rewrite Hhttp. reflexivity.
Qed.

End DownloadFacts.

(** C2, on the code. The key is appended, but the failure thrown for a 429
    response, [new Error("429")], does not pass the test of [withRetry]
    (which looks for 429 in [code] and [status], and for "quota" in the
    message): the download is invoked once, nothing is slept, and the
    failure is rethrown while the status line announces a pending retry. *)
Theorem download_429_is_rethrown_at_once :
  forall (R : Type) (http : string -> R -> outcome Response * R)
         (link : string) (w : World (App VideoGenerator.UI R))
         (response : Response) (s : R),
    aborted w = false ->
    http (link ++ "&key=" ++ apiKey (env w)) (remote (env w)) = (Ok response, s) ->
    status_code response = 429%Z ->
    isRateLimited (Exn (newError "429")) = false
    /\ exists w',
         withRetry (VideoGenerator.download http link) defaultRetries w
         = (Throw (Exn (newError "429")), w')
         /\ history w'
            = (history w
               ++ [EvCall; EvFetch (link ++ "&key=" ++ apiKey (env w))])%list
         /\ calls w' = (calls w + 1)%nat
         /\ sleeps w' = sleeps w
         /\ VideoGenerator.statusMessage (ui (env w')) = "Pending (Quota)...".
Proof.
  intros R http link w response s Ha Hhttp H429.
  split; [reflexivity|].
  unfold withRetry, defaultRetries. simpl retry_loop.
  unfold VideoGenerator.download at 1, fetch.
  change (aborted (log EvCall w)) with (aborted w). rewrite Ha.
  unfold log. cbn [env]. rewrite Hhttp. unfold ok. rewrite H429.
  cbn [Z.leb Z.eqb Z.compare Pos.compare Pos.compare_cont Pos.eqb andb negb].
  change (isRateLimited (Exn (newError "429"))) with false.
  cbn [andb].
  eexists. split; [reflexivity|].
  unfold history, calls, sleeps. simpl.
  rewrite <- app_assoc. repeat split; try reflexivity. lia.
Qed.

Lemma C2_witness :
  isRateLimited (Exn (newError "429")) = false
  /\ exists w',
       withRetry (VideoGenerator.download http_429_then_ok "https://x/y?alt=media")
                 defaultRetries (start (app 0%nat) None)
       = (Throw (Exn (newError "429")), w')
       /\ history w' = [EvCall; EvFetch "https://x/y?alt=media&key=KEY"]
       /\ calls w' = 1%nat
       /\ sleeps w' = 0%nat
       /\ VideoGenerator.statusMessage (ui (env w')) = "Pending (Quota)...".
Proof.
  apply (download_429_is_rethrown_at_once
           nat http_429_then_ok "https://x/y?alt=media"
           (start (app 0%nat) None) tooMany 1%nat);
    reflexivity.
Defined.

(** ** Failures that mention resource_exhausted *)

Lemma includes_app_r (a b sub : string) :
  includes b sub = true -> includes (a ++ b) sub = true.
Proof.
  intros H. induction a as [|c a IH]; [exact H|].
  simpl. rewrite IH. apply orb_true_r.
Qed.

Lemma toLowerCase_app (a b : string) :
  toLowerCase (a ++ b) = toLowerCase a ++ toLowerCase b.
Proof.
  induction a as [|c a IH]; [reflexivity|].
  simpl. now rewrite IH.
Qed.

(** [String(err)] ends with the message of [err]. *)
Lemma errorToString_includes (e : JsError) (sub : string) :
  includes (retry_message (Exn e)) sub = true ->
  includes (toLowerCase (errorToString e)) sub = true.
Proof.
  unfold retry_message, errorToString, str_or, message_of.
  destruct (message e) as [m|]; intros H.
  - destruct (m =? EmptyString) eqn:Hm.
    + apply String.eqb_eq in Hm. subst m.
      destruct (name e =? EmptyString) eqn:Hn; [exact H|].
      simpl. apply String.eqb_neq in Hn.
      destruct (name e); [congruence|]. simpl in H. simpl.
      destruct sub; [reflexivity|discriminate H].
    + destruct (name e =? EmptyString); [exact H|].
      rewrite !toLowerCase_app. now apply includes_app_r, includes_app_r.
  - destruct (name e =? EmptyString) eqn:Hn; [exact H|].
    apply String.eqb_neq in Hn. destruct sub; [|discriminate H].
    destruct (name e); [congruence|reflexivity].
Qed.

(** C5, as stated, fails: a failure whose message contains
    "resource_exhausted", without code or status, is rethrown by [withRetry]
    after one invocation and no sleep. *)
Lemma resource_exhausted_alone_is_not_retried :
  let e := newError "RESOURCE_EXHAUSTED: please try again later" in
  let run := withRetry (lift (throws_once e "operation")) defaultRetries
                       (start 0%nat None) in
  includes (retry_message (Exn e)) "resource_exhausted" = true
  /\ isRateLimited (Exn e) = false
  /\ fst run = Throw (Exn e)
  /\ history (snd run) = [EvCall]
  /\ sleeps (snd run) = 0%nat.
Proof.
  vm_compute. repeat split; reflexivity.
Qed.

(** C5, amended. A failure whose message contains "resource_exhausted" is
    retried by [withRetry] exactly when its code is "429", its status
    contains "429" or its message contains "quota"; otherwise [withRetry]
    rethrows it after a single invocation, without sleeping. The [catch]
    block of the handler is where "resource_exhausted" is recognised: it
    never reports such a failure as [Fatal]. *)
Theorem resource_exhausted_is_retried_only_with_429_or_quota :
  forall (E T : Type) (f : E -> outcome T * E) (w : World E) (e : JsError)
         (m : nat),
    includes (retry_message (Exn e)) "resource_exhausted" = true ->
    fst (f (env w)) = Throw (Exn e) ->
    let w1 := set_env (snd (f (env w))) (log EvCall w) in
    let retried :=
      (retry_code (Exn e) =? "429")
      || includes (retry_status (Exn e)) "429"
      || includes (retry_message (Exn e)) "quota" in
    (retried = false ->
     withRetry (lift f) (S m) w = (Throw (Exn e), w1))
    /\ (retried = true ->
        withRetry (lift f) (S (S m)) w
        = retry_loop (lift f) (S (S m)) (S m) 1 (Exn e)
            (sleep (waitTime 0 (fst (random w1))) (snd (random w1))))
    /\ forall JSON_stringify,
         VideoGenerator.classify JSON_stringify e <> VideoGenerator.Fatal.
Proof.
  intros E T f w e m Hmsg Hthrow w1 retried.
  assert (Hstep : lift f (log EvCall w) = (Throw (Exn e), w1)).
  { unfold lift, w1. simpl. destruct (f (env w)) as [r e']. simpl in *.
    now subst r. }
  split; [|split].
  - intros Hno. unfold withRetry. simpl retry_loop. rewrite Hstep.
    unfold isRateLimited. fold retried. now rewrite Hno.
  - intros Hyes. unfold withRetry. simpl retry_loop. rewrite Hstep.
    unfold isRateLimited. fold retried. rewrite Hyes. reflexivity.
  - intros JSON_stringify. unfold VideoGenerator.classify.
    match goal with
    | |- (if ?c then _ else _) <> _ => destruct c; [discriminate|]
    end.
    cbv zeta.
    match goal with
    | |- (if ?c then _ else _) <> _ => destruct c; [discriminate|]
    end.
    rewrite (includes_app_r _ _ "resource_exhausted"
               (errorToString_includes e _ Hmsg)).
    rewrite orb_true_r. simpl. discriminate.
Qed.

Lemma C5_witness :
  withRetry (lift (throws_once (newError "RESOURCE_EXHAUSTED") "operation"))
            7 (start 0%nat None)
  = (Throw (Exn (newError "RESOURCE_EXHAUSTED")),
     set_env 1%nat (log EvCall (start 0%nat None))).
Proof.
  apply (resource_exhausted_is_retried_only_with_429_or_quota
           nat string (throws_once (newError "RESOURCE_EXHAUSTED") "operation")
           (start 0%nat None) (newError "RESOURCE_EXHAUSTED") 6%nat);
    reflexivity.
Defined.

(** ** The progress estimate *)

Lemma Qlt_bool_true (a b : Q) : Qlt_bool a b = true -> a < b.
Proof.
  unfold Qlt_bool. intros H. apply negb_true_iff in H.
  apply Qnot_le_lt. intros Hle. apply Qle_bool_iff in Hle. congruence.
Qed.

Lemma Qlt_bool_false (a b : Q) : Qlt_bool a b = false -> b <= a.
Proof.
  unfold Qlt_bool. intros H. apply negb_false_iff in H.
  now apply Qle_bool_iff.
Qed.

Lemma tick_ge (prev r : Q) :
  unit_interval r -> prev <= VideoGenerator.tick prev r.
Proof.
  intros [Hr0 Hr1]. unfold VideoGenerator.tick.
  destruct (Qlt_bool prev 90); [lra|].
  destruct (Qlt_bool prev 98); lra.
Qed.

Lemma tick_below_99 (prev r : Q) :
  unit_interval r -> prev < 99 -> VideoGenerator.tick prev r < 99.
Proof.
  intros [Hr0 Hr1] Hp. unfold VideoGenerator.tick.
  destruct (Qlt_bool prev 90) eqn:H90.
  - apply Qlt_bool_true in H90. lra.
  - destruct (Qlt_bool prev 98) eqn:H98; [|exact Hp].
    apply Qlt_bool_true in H98. lra.
Qed.

Lemma ticks_below_99 (rs : list Q) :
  Forall unit_interval rs ->
  forall p, p < 99 -> VideoGenerator.ticks rs p < 99.
Proof.
  induction 1 as [|r rs Hr _ IH]; intros p Hp; [exact Hp|].
  simpl. apply IH. now apply tick_below_99.
Qed.

(** Once the handler has set 99, the interval leaves the value alone. *)
Lemma tick_holds_99 (r : Q) : VideoGenerator.tick 99 r = 99.
Proof. reflexivity. Qed.

(** The two components run the same estimator. *)
Lemma LogoAnimator_tick_eq (prev r : Q) :
  LogoAnimator.tick prev r = VideoGenerator.tick prev r.
Proof. reflexivity. Qed.

Lemma retry_loop_quiet {E T : Type} (fn : action E T) (maxRetries : nat) :
  quiet fn ->
  forall (left i : nat) (lastError : thrown) (w : World E),
    progress_set (snd (retry_loop fn maxRetries left i lastError w))
    = progress_set w.
Proof.
  intros Hq. induction left as [|left IH]; intros i lastError w;
    [reflexivity|].
  simpl retry_loop.
  pose proof (Hq (log EvCall w)) as Hfn.
  destruct (fn (log EvCall w)) as [[v|x] w1]; simpl in Hfn; [exact Hfn|].
  destruct (isRateLimited x && (i <? maxRetries - 1)%nat); [|exact Hfn].
  simpl. rewrite IH. exact Hfn.
Qed.

Lemma withRetry_quiet {E T : Type} (fn : action E T) (maxRetries : nat) :
  quiet fn -> quiet (withRetry fn maxRetries).
Proof.
  intros Hq w. apply retry_loop_quiet, Hq.
Qed.

Lemma poll_loop_quiet {E : Type}
      (getVideosOperation : Operation -> action E Operation) :
  (forall op, quiet (getVideosOperation op)) ->
  forall (fuel : nat) (op : Operation) (w : World E) r w',
    pollOperation getVideosOperation fuel op w = Some (r, w') ->
    progress_set w' = progress_set w.
Proof.
  intros Hq. induction fuel as [|fuel IH]; intros op w r w' H; simpl in H.
  - destruct (done op); [|discriminate].
    destruct (error op); inversion H; reflexivity.
  - destruct (done op).
    + destruct (error op); inversion H; reflexivity.
    + destruct (aborted w); [inversion H; reflexivity|].
      pose proof (withRetry_quiet _ defaultRetries (Hq op) (sleep 10000 w))
        as Hw.
      destruct (withRetry _ _ _) as [[op1|x] w2]; simpl in Hw.
      * rewrite (IH _ _ _ _ H). exact Hw.
      * inversion H; subst. exact Hw.
Qed.

Lemma remote_call_quiet {U R T : Type} (api : string)
      (serve : R -> outcome T * R) :
  quiet (remote_call (U:=U) api serve).
Proof.
  intros w. unfold remote_call. simpl.
  now destruct (serve (remote (env w))).
Qed.

Section HandlerFacts.
Context {R : Type}.
Variable serve_generateVideos : VideoRequest -> R -> outcome Operation * R.
Variable serve_getVideosOperation : Operation -> R -> outcome Operation * R.
Variable http : string -> R -> outcome Response * R.
Variable JSON_stringify : JsError -> string.

Lemma download_quiet (link : string) :
  quiet (VideoGenerator.download http link).
Proof.
  intros w. unfold VideoGenerator.download, fetch.
  destruct (aborted w); [reflexivity|].
  unfold log. cbn [env].
  destruct (http _ _) as [[response|x] s]; [|reflexivity].
  destruct (negb (ok response)); [|reflexivity].
  destruct (status_code response =? 429)%Z; reflexivity.
Qed.

Lemma caught_quiet (x : thrown) (w : World (App VideoGenerator.UI R)) :
  progress_set (snd (VideoGenerator.caught JSON_stringify x w))
  = progress_set w.
Proof.
  destruct x as [|err]; [reflexivity|].
  unfold VideoGenerator.caught, VideoGenerator.handleCaught.
  destruct (VideoGenerator.classify JSON_stringify err); try reflexivity.
  simpl. destruct (aistudio (env w)); reflexivity.
Qed.

End HandlerFacts.

Section HandleGenerateFacts.
Context {R : Type}.
Variable serve_generateVideos : VideoRequest -> R -> outcome Operation * R.
Variable serve_getVideosOperation : Operation -> R -> outcome Operation * R.
Variable http : string -> R -> outcome Response * R.
Variable JSON_stringify : JsError -> string.

Lemma submit_quiet (w : World (App VideoGenerator.UI R)) :
  progress_set (snd (VideoGenerator.submit serve_generateVideos w))
  = progress_set w.
Proof.
  unfold VideoGenerator.submit, generateVideo.
  etransitivity;
    [apply withRetry_quiet; intros w0; apply remote_call_quiet | reflexivity].
Qed.

Lemma poll_quiet (fuel : nat) (op : Operation)
      (w : World (App VideoGenerator.UI R)) r w' :
  VideoGenerator.poll serve_getVideosOperation fuel op w = Some (r, w') ->
  progress_set w' = progress_set w.
Proof.
  unfold VideoGenerator.poll. intros H.
  apply poll_loop_quiet in H; [exact H|].
  intros o w0. apply remote_call_quiet.
Qed.

Lemma retrieve_quiet (link : string) (w : World (App VideoGenerator.UI R)) :
  progress_set (snd (VideoGenerator.retrieve http link w))
  = EvProgress 99 :: progress_set w.
Proof.
  unfold VideoGenerator.retrieve.
  etransitivity;
    [apply withRetry_quiet, download_quiet | reflexivity].
Qed.

(** A run that leaves the progress events alone needs no justification. *)
Lemma nothing_forced (after before : list event)
      (P : list event -> Prop) :
  after = before ->
  exists forced,
    after = (forced ++ before)%list
    /\ (forced = []
        \/ forced = [EvProgress 99]
        \/ forced = [EvProgress 100; EvProgress 99])
    /\ (forced <> [] -> P forced).
Proof.
  intros ->. exists []. split; [reflexivity|].
  split; [now left|]. congruence.
Qed.

Lemma caught_forces_nothing (x : thrown) (before : list event)
      (w : World (App VideoGenerator.UI R)) (res : outcome unit)
      (w' : World (App VideoGenerator.UI R)) :
  progress_set w = before ->
  Some (VideoGenerator.caught JSON_stringify x w) = Some (res, w') ->
  progress_set w' = before.
Proof.
  intros Hw H. inversion H as [Hc].
  pose proof (caught_quiet JSON_stringify x w) as Hq.
  rewrite Hc in Hq. simpl in Hq. now rewrite Hq.
Qed.

(** What [handleGenerate] does to the progress value: nothing, or 99 once
    the poller has returned a finished operation with a link, or 99 and then
    100 once the artifact has been downloaded as well. *)
Lemma handleGenerate_progress (fuel : nat)
      (w : World (App VideoGenerator.UI R)) (res : outcome unit)
      (w' : World (App VideoGenerator.UI R)) :
  VideoGenerator.handleGenerate serve_generateVideos serve_getVideosOperation
    http JSON_stringify fuel w = Some (res, w') ->
  exists forced,
    progress_set w' = (forced ++ progress_set w)%list
    /\ (forced = []
        \/ forced = [EvProgress 99]
        \/ forced = [EvProgress 100; EvProgress 99])
    /\ (forced <> [] ->
        exists op wa result wc,
          VideoGenerator.submit serve_generateVideos w = (Ok op, wa)
          /\ VideoGenerator.poll serve_getVideosOperation fuel op wa
             = Some (Ok result, wc)
          /\ done result = true
          /\ GeminiService.error result = None
          /\ (forced = [EvProgress 100; EvProgress 99] ->
              exists link blob we,
                uri result = Some link
                /\ VideoGenerator.retrieve http link wc = (Ok blob, we)
                /\ aborted we = false
                /\ VideoGenerator.videoUrl (ui (env w')) = Some blob
                /\ VideoGenerator.progress (ui (env w')) = 100)).
Proof.
  unfold VideoGenerator.handleGenerate. intros H.
  destruct (blank _).
  { inversion H; subst.
    now apply (nothing_forced _ _ (fun forced => _)). }
  pose proof (submit_quiet w) as Hs.
  destruct (VideoGenerator.submit serve_generateVideos w)
    as [[op|x] wa] eqn:Hsubmit; simpl in Hs.
  2:{ apply (nothing_forced _ _ (fun forced => _)).
      exact (caught_forces_nothing _ _ _ _ _ Hs H). }
  destruct (VideoGenerator.poll serve_getVideosOperation fuel op wa)
    as [[[result|x] wc]|] eqn:Hpoll; [ | | discriminate].
  2:{ apply (nothing_forced _ _ (fun forced => _)).
      apply (caught_forces_nothing x _ wc res w'); [|exact H].
      now rewrite (poll_quiet _ _ _ _ _ Hpoll). }
  pose proof (poll_quiet _ _ _ _ _ Hpoll) as Hp.
  destruct (poll_result_is_finished _ _ _ _ _ _ Hpoll) as [Hdone Herr].
  assert (Hwc : progress_set wc = progress_set w) by now rewrite Hp.
  destruct (uri result) as [[|c l]|] eqn:Huri.
  1,3: apply (nothing_forced _ _ (fun forced => _));
    exact (caught_forces_nothing _ _ _ _ _ Hwc H).
  pose proof (retrieve_quiet (String c l) wc) as Hr.
  destruct (VideoGenerator.retrieve http (String c l) wc)
    as [[blob|x] we] eqn:Hret; simpl in Hr.
  - destruct (aborted we) eqn:Hab; inversion H; subst.
    + exists [EvProgress 99]. split.
      * change (progress_set (VideoGenerator.finally we))
          with (progress_set we). rewrite Hr, Hwc. reflexivity.
      * split; [right; now left|]. intros _.
        exists op, wa, result, wc. repeat split; try assumption.
        discriminate.
    + exists [EvProgress 100; EvProgress 99]. split.
      * change (progress_set
                  (VideoGenerator.finally
                     (VideoGenerator.setProgress 100
                        (VideoGenerator.setVideoUrl (Some blob) we))))
          with (EvProgress 100 :: progress_set we).
        rewrite Hr, Hwc. reflexivity.
      * split; [right; now right|]. intros _.
        exists op, wa, result, wc. repeat split; try assumption.
        intros _. exists (String c l), blob, we.
        repeat split; try assumption; reflexivity.
  - exists [EvProgress 99]. split.
    + assert (Hwe : progress_set we = (EvProgress 99 :: progress_set w))
        by now rewrite Hr, Hwc.
      now rewrite (caught_forces_nothing x _ we res w' Hwe H).
    + split; [right; now left|]. intros _.
      exists op, wa, result, wc. repeat split; try assumption.
      discriminate.
Qed.

End HandleGenerateFacts.

(** C8. Starting from 0, every tick of the estimator yields a value at
    least equal to the previous one and below 99, in the video generator
    and in the logo animator alike. The handler is the only one to set 99
    and 100: 99 once the poller has returned a finished operation without
    error, and 100 only after the download of the artifact has succeeded as
    well (and the token is not aborted). *)
Theorem progress_is_monotone_and_capped_until_done :
  (forall (rs : list Q) (r : Q),
      Forall unit_interval rs ->
      unit_interval r ->
      VideoGenerator.ticks rs 0 <= VideoGenerator.ticks (rs ++ [r]) 0
      /\ VideoGenerator.ticks (rs ++ [r]) 0 < 99
      /\ LogoAnimator.ticks (rs ++ [r]) 0
         = VideoGenerator.ticks (rs ++ [r]) 0)
  /\ (forall (R : Type)
             (serve_generateVideos : VideoRequest -> R -> outcome Operation * R)
             (serve_getVideosOperation :
                Operation -> R -> outcome Operation * R)
             (http : string -> R -> outcome Response * R)
             (JSON_stringify : JsError -> string)
             (fuel : nat) (w : World (App VideoGenerator.UI R))
             (res : outcome unit) (w' : World (App VideoGenerator.UI R)),
         VideoGenerator.handleGenerate serve_generateVideos
           serve_getVideosOperation http JSON_stringify fuel w
         = Some (res, w') ->
         exists forced,
           progress_set w' = (forced ++ progress_set w)%list
           /\ (forced = []
               \/ forced = [EvProgress 99]
               \/ forced = [EvProgress 100; EvProgress 99])
           /\ (forced <> [] ->
               exists op wa result wc,
                 VideoGenerator.submit serve_generateVideos w = (Ok op, wa)
                 /\ VideoGenerator.poll serve_getVideosOperation fuel op wa
                    = Some (Ok result, wc)
                 /\ done result = true
                 /\ GeminiService.error result = None
                 /\ (forced = [EvProgress 100; EvProgress 99] ->
                     exists link blob we,
                       uri result = Some link
                       /\ VideoGenerator.retrieve http link wc = (Ok blob, we)
                       /\ aborted we = false
                       /\ VideoGenerator.videoUrl (ui (env w')) = Some blob
                       /\ VideoGenerator.progress (ui (env w')) = 100))).
Proof.
  split.
  - intros rs r Hrs Hr.
    assert (Hlast : VideoGenerator.ticks (rs ++ [r]) 0
                    = VideoGenerator.tick (VideoGenerator.ticks rs 0) r)
      by (unfold VideoGenerator.ticks; now rewrite fold_left_app).
    assert (Hlt : VideoGenerator.ticks rs 0 < 99)
      by (apply ticks_below_99; [exact Hrs | reflexivity]).
    split; [|split].
    + rewrite Hlast. now apply tick_ge.
    + rewrite Hlast. now apply tick_below_99.
    + reflexivity.
  - intros R sgv sgvo http JSON_stringify fuel w res w' H.
    exact (handleGenerate_progress sgv sgvo http JSON_stringify fuel w res w' H).
Qed.

Lemma C8_witness :
  (VideoGenerator.ticks [1 # 2; 1 # 2] 0
   <= VideoGenerator.ticks [1 # 2; 1 # 2; 1 # 2] 0
   /\ VideoGenerator.ticks [1 # 2; 1 # 2; 1 # 2] 0 < 99)
  /\ exists forced,
       progress_set (snd generate_result)
       = (forced ++ progress_set (start (app 0%nat) None))%list
       /\ (forced = []
           \/ forced = [EvProgress 99]
           \/ forced = [EvProgress 100; EvProgress 99]).
Proof.
  split.
  - destruct (proj1 progress_is_monotone_and_capped_until_done
                [1 # 2; 1 # 2] (1 # 2)) as [Hle [Hlt _]].
    + repeat constructor; discriminate.
    + split; [discriminate | reflexivity].
    + split; [exact Hle | exact Hlt].
  - destruct (proj2 progress_is_monotone_and_capped_until_done
                nat submit_ok (job 3 finished) http_ok stringify_empty 5%nat
                (start (app 0%nat) None)
                (fst generate_result) (snd generate_result))
      as [forced [Hp [Hf _]]].
    + vm_compute. reflexivity.
    + exists forced. split; [exact Hp | exact Hf].
Defined.

(** On that run the estimate ends at 100 and the video is available. *)
Example run_generate_succeeds :
  fst generate_result = Ok tt
  /\ progress_set (snd generate_result) = [EvProgress 100; EvProgress 99]
  /\ VideoGenerator.videoUrl (ui (env (snd generate_result)))
     = Some "video-bytes"
  /\ network_calls (snd generate_result) = 5%nat
  /\ clock (snd generate_result) == 30000.
Proof. vm_compute. repeat split; reflexivity. Qed.

(** ** The model on concrete runs *)

(** Failures the executor retries, and one it does not. *)
Example isRateLimited_examples :
  isRateLimited (Exn tooManyRequests) = true
  /\ isRateLimited (Exn quotaMessage) = true
  /\ isRateLimited (Exn nestedCode) = true
  /\ isRateLimited (Exn serverError) = false
  /\ isRateLimited Undefined = false.
Proof. repeat split; reflexivity. Qed.

(** Two rate-limited failures, then a success: three invocations and two
    sleeps, of 5000 and 10000 ms plus the jitter. *)
Example retry_twice_then_success :
  let run := withRetry (lift (fail_then 2 "operation")) defaultRetries
                       (start 0%nat None) in
  fst run = Ok "operation"
  /\ history (snd run)
     = [EvCall; EvSleep (waitTime 0 (1 # 2));
        EvCall; EvSleep (waitTime 1 (1 # 2)); EvCall]
  /\ clock (snd run) == 18000.
Proof. vm_compute. repeat split; reflexivity. Qed.

(** A budget that runs out: the seventh failure is rethrown as it is, after
    six sleeps. *)
Example retry_budget_exhausted :
  let run := withRetry (lift (fail_then 9 "operation")) defaultRetries
                       (start 0%nat None) in
  fst run = Throw (Exn tooManyRequests)
  /\ calls (snd run) = 7%nat
  /\ sleeps (snd run) = 6%nat
  /\ env (snd run) = 7%nat.
Proof. vm_compute. repeat split; reflexivity. Qed.

(** A failure that is not rate-limited stops the executor at once. *)
Example fatal_failure_is_not_retried :
  let run := withRetry (lift (throws_once serverError "operation"))
                       defaultRetries (start 0%nat None) in
  fst run = Throw (Exn serverError) /\ history (snd run) = [EvCall].
Proof. vm_compute. repeat split; reflexivity. Qed.

(** A poll that is rate-limited once is retried inside the iteration. *)
Example poll_is_retried :
  match pollOperation (fun o => lift (flaky_job o)) 1 pending
                      (start 0%nat None) with
  | Some (res, w') =>
      res = Ok finished
      /\ history w'
         = [EvSleep 10000; EvCall; EvSleep (waitTime 0 (1 # 2)); EvCall]
  | None => False
  end.
Proof. vm_compute. repeat split; reflexivity. Qed.

(** A poller whose fuel runs out before the job is done reports it. *)
Example poll_out_of_fuel :
  pollOperation (fun o => lift (job 3 finished o)) 2 pending
                (start 0%nat None)
  = None.
Proof. reflexivity. Qed.

(** A refused download whose reason phrase mentions a quota is retried. *)
Example download_quota_reason_is_retried :
  let run :=
    withRetry (VideoGenerator.download http_403_then_ok "https://x/y?alt=media")
              defaultRetries (start (app 0%nat) None) in
  fst run = Ok "video-bytes"
  /\ calls (snd run) = 2%nat
  /\ sleeps (snd run) = 1%nat.
Proof. vm_compute. repeat split; reflexivity. Qed.

(** The handler reports the failure thrown for a 429 download as an
    exhausted quota. *)
Example download_429_is_reported_as_quota :
  VideoGenerator.classify stringify_empty (newError "429")
  = VideoGenerator.QuotaExhausted.
Proof. reflexivity. Qed.

(** * Further properties of the code *)

(** ** The retry executor: giving up *)

(** A run of the loop over [k] retried failures followed by a failure that
    is not retried, either for what it is or for want of attempts. *)
Lemma retry_loop_gives_up {E T : Type} (f : E -> outcome T * E)
      (maxRetries k : nat) :
  forall (left i : nat) (lastError : thrown) (w : World E) (x : thrown),
    (k < left)%nat ->
    (i + left = maxRetries)%nat ->
    rate_limited_until f (env w) k ->
    outcome_at f (env w) k = Throw x ->
    isRateLimited x = false \/ (i + k = maxRetries - 1)%nat ->
    exists w',
      retry_loop (lift f) maxRetries left i lastError w = (Throw x, w')
      /\ env w' = env_at f (env w) (S k)
      /\ trace w'
         = (rev (backoff_events (randoms w) (drawn w) i k ++ [EvCall])
            ++ trace w)%list
      /\ drawn w' = (drawn w + k)%nat.
Proof.
  induction k as [|k IH]; intros left i lastError w x Hk Hi Hfail Hx Hstop.
  - destruct left as [|left]; [lia|].
    unfold outcome_at in Hx. simpl in Hx.
    simpl. unfold lift. simpl.
    destruct (f (env w)) as [r e'] eqn:Hf. simpl in Hx. subst r.
    assert (Hno : isRateLimited x && (i <? maxRetries - 1)%nat = false).
    { destruct Hstop as [-> | Hlast]; [reflexivity|].
      apply andb_false_iff. right. apply Nat.ltb_ge. lia. }
    rewrite Hno. eexists. split; [reflexivity|].
    simpl. rewrite Nat.add_0_r. repeat split; reflexivity.
  - destruct left as [|left]; [lia|].
    destruct (rate_limited_until_head _ _ _ Hfail) as [y [Hy Hrl]].
    apply rate_limited_until_shift in Hfail.
    assert (Hlt : (i <? maxRetries - 1)%nat = true)
      by (apply Nat.ltb_lt; lia).
    simpl retry_loop. unfold lift at 1. simpl.
    destruct (f (env w)) as [r e'] eqn:Hf. simpl in Hy. subst r.
    rewrite Hrl, Hlt. simpl.
    unfold outcome_at in Hx. simpl in Hx. rewrite Hf in Hx.
    simpl in Hx, Hfail.
    match goal with
    | |- context [retry_loop _ _ _ _ _ ?w3] =>
        destruct (IH left (S i) y w3 x) as [w' [Hrun [He [Ht Hd]]]]
    end; try assumption; try lia.
    { destruct Hstop as [Hn | Hlast]; [now left | right; lia]. }
    exists w'. split; [exact Hrun|].
    simpl in He, Ht, Hd.
    repeat split; try assumption.
    + rewrite Ht. simpl. rewrite <- !app_assoc. reflexivity.
    + lia.
Qed.

(** X1. When every one of the [maxRetries] attempts fails with a
    rate-limited failure, [withRetry] rethrows the failure of the last
    attempt as it is, after [maxRetries] invocations and [maxRetries - 1]
    sleeps. *)
Theorem withRetry_exhausted_rethrows_last_failure :
  forall (E T : Type) (f : E -> outcome T * E) (maxRetries : nat)
         (w : World E),
    (0 < maxRetries)%nat ->
    rate_limited_until f (env w) maxRetries ->
    exists x w',
      outcome_at f (env w) (maxRetries - 1) = Throw x
      /\ withRetry (lift f) maxRetries w = (Throw x, w')
      /\ calls w' = (calls w + maxRetries)%nat
      /\ sleeps w' = (sleeps w + (maxRetries - 1))%nat
      /\ env w' = env_at f (env w) maxRetries.
Proof.
  intros E T f maxRetries w Hpos Hall.
  destruct (Hall (maxRetries - 1)%nat ltac:(lia)) as [x [Hx _]].
  assert (Hpre : rate_limited_until f (env w) (maxRetries - 1))
    by (intros j Hj; apply Hall; lia).
  destruct (retry_loop_gives_up f maxRetries (maxRetries - 1) maxRetries 0
              Undefined w x ltac:(lia) eq_refl Hpre Hx
              ltac:(right; reflexivity))
    as [w' [Hrun [He [Ht _]]]].
  exists x, w'. split; [exact Hx|]. split; [exact Hrun|].
  replace (S (maxRetries - 1)) with maxRetries in He by lia.
  unfold calls, sleeps. rewrite Ht, !count_run.
  rewrite backoff_events_calls, backoff_events_sleeps. simpl.
  repeat split; try assumption; lia.
Qed.

Lemma withRetry_exhausted_witness :
  exists x w',
    outcome_at (fail_then 9 "operation") 0%nat 6 = Throw x
    /\ withRetry (lift (fail_then 9 "operation")) 7 (start 0%nat None)
       = (Throw x, w')
    /\ calls w' = 7%nat
    /\ sleeps w' = 6%nat
    /\ env w' = 7%nat.
Proof.
  apply (withRetry_exhausted_rethrows_last_failure
           nat string (fail_then 9 "operation") 7%nat (start 0%nat None)).
  - lia.
  - intros j Hj. exists (Exn tooManyRequests).
    do 7 (destruct j as [|j]; [split; reflexivity|]). lia.
Defined.

(** X2. After [k] retried failures, a failure that does not pass the
    rate-limit test is rethrown at once: [k + 1] invocations, [k] sleeps,
    and the attempts that remain are not used. *)
Theorem withRetry_rethrows_other_failures_at_once :
  forall (E T : Type) (f : E -> outcome T * E) (maxRetries k : nat)
         (w : World E) (x : thrown),
    (k < maxRetries)%nat ->
    rate_limited_until f (env w) k ->
    outcome_at f (env w) k = Throw x ->
    isRateLimited x = false ->
    exists w',
      withRetry (lift f) maxRetries w = (Throw x, w')
      /\ calls w' = (calls w + S k)%nat
      /\ sleeps w' = (sleeps w + k)%nat
      /\ env w' = env_at f (env w) (S k).
Proof.
  intros E T f maxRetries k w x Hk Hfail Hx Hno.
  destruct (retry_loop_gives_up f maxRetries k maxRetries 0 Undefined w x
              Hk eq_refl Hfail Hx (or_introl Hno))
    as [w' [Hrun [He [Ht _]]]].
  exists w'. split; [exact Hrun|].
  unfold calls, sleeps. rewrite Ht, !count_run.
  rewrite backoff_events_calls, backoff_events_sleeps. simpl.
  repeat split; try assumption; lia.
Qed.

Lemma withRetry_rethrows_other_failures_witness :
  exists w',
    withRetry (lift (throws_once serverError "operation")) 7
              (start 0%nat None)
    = (Throw (Exn serverError), w')
    /\ calls w' = 1%nat
    /\ sleeps w' = 0%nat
    /\ env w' = 1%nat.
Proof.
  apply (withRetry_rethrows_other_failures_at_once
           nat string (throws_once serverError "operation") 7%nat 0%nat
           (start 0%nat None) (Exn serverError)).
  - lia.
  - intros j Hj. lia.
  - reflexivity.
  - reflexivity.
Defined.

(** X3. Whatever the action does, [withRetry] invokes it at least once and
    at most [maxRetries] times, and sleeps exactly once between two
    consecutive invocations; with a budget of 0 it does not invoke the
    action at all and rejects with [undefined]. *)
Theorem withRetry_stays_within_budget :
  forall (E T : Type) (f : E -> outcome T * E) (maxRetries : nat)
         (w : World E),
    (maxRetries = 0%nat ->
     withRetry (lift f) maxRetries w = (Throw Undefined, w))
    /\ ((0 < maxRetries)%nat ->
        let w' := snd (withRetry (lift f) maxRetries w) in
        (calls w < calls w')%nat
        /\ (calls w' <= calls w + maxRetries)%nat
        /\ (sleeps w' - sleeps w + 1 = calls w' - calls w)%nat).
Proof.
  intros E T f maxRetries w. split.
  - intros ->. reflexivity.
  - intros Hpos w'.
    destruct (retry_loop_shape f maxRetries maxRetries 0 Undefined w Hpos
                (Nat.add_0_l _)) as [k [Hk Ht]].
    unfold w', calls, sleeps, withRetry. rewrite Ht, !count_run.
    rewrite backoff_events_calls, backoff_events_sleeps. simpl.
    repeat split; lia.
Qed.

Lemma withRetry_stays_within_budget_witness :
  let w' := snd (withRetry (lift (fail_then 2 "operation")) 7
                           (start 0%nat None)) in
  (calls (start 0%nat None) < calls w')%nat
  /\ (calls w' <= calls (start 0%nat None) + 7)%nat
  /\ (sleeps w' - sleeps (start 0%nat None) + 1
      = calls w' - calls (start 0%nat None))%nat.
Proof.
  apply (withRetry_stays_within_budget
           nat string (fail_then 2 "operation") 7%nat (start 0%nat None)).
  lia.
Defined.

(** ** The retry executor: the time spent backing off *)

Lemma retry_loop_clock {E T : Type} (f : E -> outcome T * E)
      (maxRetries : nat) :
  forall (left i : nat) (lastError : thrown) (w : World E),
    (0 < left)%nat ->
    (i + left = maxRetries)%nat ->
    exists k,
      (k < left)%nat
      /\ clock (snd (retry_loop (lift f) maxRetries left i lastError w))
         == clock w + total_sleep (backoff_events (randoms w) (drawn w) i k).
Proof.
  induction left as [|left IH]; intros i lastError w Hpos Hsum; [lia|].
  simpl retry_loop. unfold lift at 1. simpl.
  destruct (f (env w)) as [[v|x] e'].
  - exists 0%nat. split; [lia|]. simpl. lra.
  - destruct (isRateLimited x && (i <? maxRetries - 1)%nat) eqn:Hretry.
    + apply andb_prop in Hretry. destruct Hretry as [_ Hlt].
      apply Nat.ltb_lt in Hlt. simpl.
      match goal with
      | |- context [retry_loop _ _ _ _ _ ?w3] =>
          destruct (IH (S i) x w3) as [k [Hk Hc]]
      end; try lia.
      exists (S k). split; [lia|].
      rewrite Hc. simpl. lra.
    + exists 0%nat. split; [lia|]. simpl. lra.
Qed.

Lemma total_sleep_backoff (rnd : nat -> Q) (k : nat) :
  (forall n, 0 <= rnd n /\ rnd n < 1) ->
  forall d i,
    0 <= total_sleep (backoff_events rnd d i k)
    /\ total_sleep (backoff_events rnd d i k)
       <= backoff_base (i + k) - backoff_base i + inject_Z (Z.of_nat k) * 3000.
Proof.
  intros Hrnd. induction k as [|k IH]; intros d i.
  - rewrite Nat.add_0_r. simpl. change (inject_Z 0) with 0. split; lra.
  - destruct (IH (S d) (S i)) as [IH0 IH1].
    destruct (Hrnd d) as [Hr0 Hr1].
    pose proof (backoff_base_double i) as Hdbl.
    pose proof (backoff_base_pos i) as Hpos.
    replace (i + S k)%nat with (S i + k)%nat by lia.
    rewrite Nat2Z.inj_succ. unfold Z.succ. rewrite inject_Z_plus.
    change (inject_Z 1) with 1.
    cbn [backoff_events total_sleep]. unfold waitTime.
    split; lra.
Qed.

(** X4. With the default budget, and whatever the action does, the time
    [withRetry] spends sleeping between the attempts is at most 333000 ms:
    the six delays 5000, 10000, ..., 160000 plus six jitters below 3000.
    The clock never goes back. *)
Theorem withRetry_total_backoff_is_bounded :
  forall (E T : Type) (f : E -> outcome T * E) (w : World E),
    random_ok w ->
    let w' := snd (withRetry (lift f) defaultRetries w) in
    clock w <= clock w' /\ clock w' <= clock w + 333000.
Proof.
  intros E T f w Hrand w'.
  destruct (retry_loop_clock f defaultRetries defaultRetries 0 Undefined w
              ltac:(unfold defaultRetries; lia) (Nat.add_0_l _))
    as [k [Hk Hc]].
  destruct (total_sleep_backoff (randoms w) k Hrand (drawn w) 0)
    as [H0 H1].
  unfold defaultRetries in Hk.
  assert (Hbase : backoff_base k <= backoff_base 6)
    by (apply backoff_base_mono; lia).
  assert (Hk3 : inject_Z (Z.of_nat k) <= 6)
    by (change 6 with (inject_Z 6); rewrite <- Zle_Qle; lia).
  change (backoff_base 0) with (inject_Z 1 * 5000) in H1.
  change (backoff_base 6) with (inject_Z 64 * 5000) in Hbase.
  change (inject_Z 1) with 1 in H1. change (inject_Z 64) with 64 in Hbase.
  simpl Nat.add in H1.
  unfold w', withRetry. rewrite Hc. split; lra.
Qed.

Lemma withRetry_total_backoff_witness :
  let w' := snd (withRetry (lift (fail_then 9 "operation")) defaultRetries
                           (start 0%nat None)) in
  clock (start 0%nat None) <= clock w'
  /\ clock w' <= clock (start 0%nat None) + 333000.
Proof.
  apply (withRetry_total_backoff_is_bounded
           nat string (fail_then 9 "operation") (start 0%nat None)).
  intros n. split; [discriminate | reflexivity].
Defined.

(** ** The rate-limit test, field by field *)

(** X5. A failure is retried as soon as its [status] is 429, or its [code]
    is 429 (number or string), or - when [code] is absent, 0 or empty - its
    [error.code] is; but a [code] that is set hides [error.code]. *)
Theorem isRateLimited_reads_status_and_codes :
  forall e : JsError,
    (status e = JNum 429 -> isRateLimited (Exn e) = true)
    /\ (code e = JNum 429 \/ code e = JStr "429" ->
        isRateLimited (Exn e) = true)
    /\ (truthy (code e) = false ->
        error_code e = JNum 429 \/ error_code e = JStr "429" ->
        isRateLimited (Exn e) = true)
    /\ (truthy (code e) = true ->
        retry_code (Exn e) = toString (code e)).
Proof.
  intros e. repeat split.
  - intros Hs. unfold isRateLimited, retry_status. simpl status_of.
    rewrite Hs. simpl. now rewrite orb_true_r.
  - intros Hc. unfold isRateLimited, retry_code. simpl code_of.
    destruct Hc as [-> | ->]; reflexivity.
  - intros Hc He. unfold isRateLimited, retry_code, or_else.
    simpl code_of. simpl error_code_of. rewrite Hc.
    destruct He as [-> | ->]; reflexivity.
  - intros Hc. unfold retry_code, or_else. simpl code_of. now rewrite Hc.
Qed.

Lemma isRateLimited_reads_witness :
  isRateLimited (Exn nestedCode) = true.
Proof.
  apply (isRateLimited_reads_status_and_codes nestedCode).
  - reflexivity.
  - left. reflexivity.
Defined.

(** ** The operation poller: failures and cancellation *)

(** X6. When the poll of a pending operation fails with a failure that the
    executor does not retry, the poller rethrows it after that single poll:
    one sleep of 10000 ms, one invocation, no further iteration. *)
Theorem pollOperation_rethrows_poll_failure :
  forall (E : Type) (serve : Operation -> E -> outcome Operation * E)
         (fuel : nat) (op : Operation) (w : World E) (x : thrown) (e1 : E),
    done op = false ->
    aborted w = false ->
    serve op (env w) = (Throw x, e1) ->
    isRateLimited x = false ->
    exists w',
      pollOperation (fun o => lift (serve o)) (S fuel) op w
      = Some (Throw x, w')
      /\ history w' = (history w ++ [EvSleep 10000; EvCall])%list
      /\ env w' = e1.
Proof.
  intros E serve fuel op w x e1 Hd Ha Hserve Hno.
  rewrite poll_iteration by assumption.
  unfold withRetry, defaultRetries. simpl retry_loop. unfold lift at 1.
  simpl. rewrite Hserve, Hno. simpl.
  eexists. split; [reflexivity|].
  unfold history. simpl. rewrite <- app_assoc. split; reflexivity.
Qed.

Lemma pollOperation_rethrows_witness :
  exists w',
    pollOperation (fun o => lift (broken_job o)) 5 pending (start 0%nat None)
    = Some (Throw (Exn serverError), w')
    /\ history w' = [EvSleep 10000; EvCall]
    /\ env w' = 1%nat.
Proof.
  apply (pollOperation_rethrows_poll_failure
           nat broken_job 4%nat pending (start 0%nat None)
           (Exn serverError) 1%nat);
    reflexivity.
Defined.

(** X7. Whatever the remote side answers, an operation returned by the
    poller is done and carries no error. *)
Theorem pollOperation_returns_only_finished_operations :
  forall (E : Type) (getVideosOperation : Operation -> action E Operation)
         (fuel : nat) (op : Operation) (w : World E)
         (result : Operation) (w' : World E),
    pollOperation getVideosOperation fuel op w = Some (Ok result, w') ->
    done result = true /\ error result = None.
Proof.
  intros E getVideosOperation fuel op w result w' H.
  exact (poll_result_is_finished getVideosOperation fuel op w result w' H).
Qed.

Lemma pollOperation_returns_only_finished_witness :
  done finished = true /\ error finished = None.
Proof.
  apply (pollOperation_returns_only_finished_operations
           nat (fun o => lift (job 3 finished o)) 3%nat pending
           (start 0%nat None) finished
           (snd (match pollOperation (fun o => lift (job 3 finished o)) 3
                         pending (start 0%nat None) with
                 | Some p => p
                 | None => (Ok finished, start 0%nat None)
                 end))).
  vm_compute. reflexivity.
Defined.

(** X8. The poller reads the token only at the top of its loop. When the
    token is aborted during the sleep of an iteration, the sleep is
    completed and the poll is still issued; the abort is then observed if
    the answer is still pending, and goes unnoticed if the answer is a
    finished operation. *)
Theorem pollOperation_observes_abort_at_next_iteration :
  forall (E : Type) (serve : Operation -> E -> outcome Operation * E)
         (fuel : nat) (op : Operation) (w : World E) (a : Q)
         (op1 : Operation) (e1 : E),
    done op = false ->
    abortAt w = Some a ->
    clock w < a ->
    a <= clock w + 10000 ->
    serve op (env w) = (Ok op1, e1) ->
    exists w',
      history w' = (history w ++ [EvSleep 10000; EvCall])%list
      /\ env w' = e1
      /\ (done op1 = false ->
          pollOperation (fun o => lift (serve o)) (S (S fuel)) op w
          = Some (Throw (Exn (newError "AbortError")), w'))
      /\ (done op1 = true -> error op1 = None ->
          pollOperation (fun o => lift (serve o)) (S (S fuel)) op w
          = Some (Ok op1, w')).
Proof.
  intros E serve fuel op w a op1 e1 Hd Ha Hlt Hle Hserve.
  assert (Hnow : aborted w = false).
  { unfold aborted. rewrite Ha.
    destruct (Qle_bool a (clock w)) eqn:Hb; [|reflexivity].
    apply Qle_bool_iff in Hb. lra. }
  exists (set_env e1 (log EvCall (sleep 10000 w))).
  assert (Hstep :
    pollOperation (fun o => lift (serve o)) (S (S fuel)) op w
    = pollOperation (fun o => lift (serve o)) (S fuel) op1
        (set_env e1 (log EvCall (sleep 10000 w)))).
  { rewrite poll_iteration by assumption.
    unfold withRetry, defaultRetries. simpl retry_loop. unfold lift at 1.
    cbn [env sleep log]. now rewrite Hserve. }
  split; [|split; [|split]].
  - unfold history. simpl. rewrite <- app_assoc. reflexivity.
  - reflexivity.
  - intros Hd1. rewrite Hstep. simpl. rewrite Hd1.
    unfold aborted. simpl. rewrite Ha.
    assert (Hb : Qle_bool a (clock w + 10000) = true)
      by now apply Qle_bool_iff.
    now rewrite Hb.
  - intros Hd1 He1. rewrite Hstep, poll_settles_when_done by exact Hd1.
    now rewrite He1.
Qed.

Lemma pollOperation_observes_abort_witness :
  exists w',
    history w' = [EvSleep 10000; EvCall]
    /\ env w' = 1%nat
    /\ pollOperation (fun o => lift (job 3 finished o)) 2 pending
                     (start 0%nat (Some 4000))
       = Some (Throw (Exn (newError "AbortError")), w').
Proof.
  destruct (pollOperation_observes_abort_at_next_iteration
              nat (job 3 finished) 0%nat pending (start 0%nat (Some 4000))
              4000 pending 1%nat)
    as [w' [Hh [He [Hab _]]]]; try reflexivity.
  - discriminate.
  - exists w'. split; [exact Hh|]. split; [exact He|].
    apply Hab. reflexivity.
Defined.

(** ** The handler of the video generator *)

Section GenerateFacts.
Context {R : Type}.
Variable serve_generateVideos : VideoRequest -> R -> outcome Operation * R.
Variable serve_getVideosOperation : Operation -> R -> outcome Operation * R.
Variable http : string -> R -> outcome Response * R.
Variable JSON_stringify : JsError -> string.

Lemma caught_ends_idle (x : thrown) (w : World (App VideoGenerator.UI R)) :
  let w' := snd (VideoGenerator.caught JSON_stringify x w) in
  VideoGenerator.isGenerating (ui (env w')) = false
  /\ VideoGenerator.statusMessage (ui (env w')) = EmptyString.
Proof.
  destruct x as [|err]; simpl; split; reflexivity.
Qed.

End GenerateFacts.

(** X9. However a run of [handleGenerate] on a non-blank prompt ends -
    success, failure or cancellation - the component is left idle:
    [isGenerating] is false and the status line is empty (the text
    "Cancelled." written by the [catch] block does not survive the
    [finally] block). *)
Theorem handleGenerate_ends_idle :
  forall (R : Type)
         (serve_generateVideos : VideoRequest -> R -> outcome Operation * R)
         (serve_getVideosOperation : Operation -> R -> outcome Operation * R)
         (http : string -> R -> outcome Response * R)
         (JSON_stringify : JsError -> string)
         (fuel : nat) (w : World (App VideoGenerator.UI R))
         (res : outcome unit) (w' : World (App VideoGenerator.UI R)),
    blank (VideoGenerator.prompt (ui (env w))) = false ->
    VideoGenerator.handleGenerate serve_generateVideos
      serve_getVideosOperation http JSON_stringify fuel w
    = Some (res, w') ->
    VideoGenerator.isGenerating (ui (env w')) = false
    /\ VideoGenerator.statusMessage (ui (env w')) = EmptyString.
Proof.
  intros R sgv sgvo http JSON_stringify fuel w res w' Hblank H.
  unfold VideoGenerator.handleGenerate in H. rewrite Hblank in H.
  assert (Hcaught :
    forall x w0, Some (VideoGenerator.caught JSON_stringify x w0)
                 = Some (res, w') ->
      VideoGenerator.isGenerating (ui (env w')) = false
      /\ VideoGenerator.statusMessage (ui (env w')) = EmptyString).
  { intros x w0 Hc. inversion Hc as [Hc'].
    pose proof (caught_ends_idle JSON_stringify x w0) as Hi.
    now rewrite Hc' in Hi. }
  destruct (VideoGenerator.submit sgv w) as [[op|x] wa];
    [|exact (Hcaught _ _ H)].
  destruct (VideoGenerator.poll sgvo fuel op wa) as [[[result|x] wc]|];
    [ | exact (Hcaught _ _ H) | discriminate].
  destruct (uri result) as [[|c l]|];
    [exact (Hcaught _ _ H) | | exact (Hcaught _ _ H)].
  destruct (VideoGenerator.retrieve http (String c l) wc) as [[blob|x] we];
    [|exact (Hcaught _ _ H)].
  destruct (aborted we); inversion H; subst; split; reflexivity.
Qed.

Lemma handleGenerate_ends_idle_witness :
  VideoGenerator.isGenerating (ui (env (snd generate_result))) = false
  /\ VideoGenerator.statusMessage (ui (env (snd generate_result)))
     = EmptyString.
Proof.
  apply (handleGenerate_ends_idle
           nat submit_ok (job 3 finished) http_ok stringify_empty 5%nat
           (start (app 0%nat) None)
           (fst generate_result) (snd generate_result)).
  - reflexivity.
  - vm_compute. reflexivity.
Defined.

Lemma blank_skips_white_space (c : string) (rest : string) :
  In c white_space -> blank (c ++ rest) = blank rest.
Proof.
  intros Hin. vm_compute in Hin.
  repeat (destruct Hin as [<- | Hin]; [reflexivity|]).
  destruct Hin.
Qed.

Lemma blank_join (ws : list string) :
  Forall (fun c => In c white_space) ws -> blank (join ws) = true.
Proof.
  induction 1 as [|c ws Hc _ IH]; [reflexivity|].
  simpl. now rewrite blank_skips_white_space.
Qed.

Lemma byte_of_nat (c : ascii) (n : nat) :
  (nat_of_ascii c =? n)%nat = true -> c = ascii_of_nat n.
Proof.
  intros H. apply Nat.eqb_eq in H. rewrite <- H.
  symmetry. apply ascii_nat_embedding.
Qed.

Lemma is_space_white (c : ascii) :
  is_space c = true -> In (String c EmptyString) white_space.
Proof.
  unfold is_space. intros H.
  rewrite <- (ascii_nat_embedding c).
  pose proof (nat_ascii_bounded c) as Hb.
  remember (nat_of_ascii c) as n eqn:Hn. clear Hn c.
  apply orb_prop in H. destruct H as [H | H].
  - apply andb_prop in H. destruct H as [H1 H2].
    apply Nat.leb_le in H1. apply Nat.leb_le in H2.
    assert (Hc : (n = 9 \/ n = 10 \/ n = 11 \/ n = 12 \/ n = 13)%nat) by lia.
    destruct Hc as [-> | [-> | [-> | [-> | ->]]]]; vm_compute; tauto.
  - apply Nat.eqb_eq in H. subst n. vm_compute. tauto.
Qed.

Lemma is_nbsp_white (c1 c2 : ascii) :
  is_nbsp c1 c2 = true ->
  In (String c1 (String c2 EmptyString)) white_space.
Proof.
  unfold is_nbsp. intros H. apply andb_prop in H. destruct H as [H1 H2].
  rewrite (byte_of_nat _ _ H1), (byte_of_nat _ _ H2). vm_compute. tauto.
Qed.

Lemma is_wide_space_white (c1 c2 c3 : ascii) :
  is_wide_space c1 c2 c3 = true ->
  In (String c1 (String c2 (String c3 EmptyString))) white_space.
Proof.
  unfold is_wide_space. intros H.
  rewrite <- (ascii_nat_embedding c1), <- (ascii_nat_embedding c2),
    <- (ascii_nat_embedding c3).
  remember (nat_of_ascii c1) as n1 eqn:E1.
  remember (nat_of_ascii c2) as n2 eqn:E2.
  remember (nat_of_ascii c3) as n3 eqn:E3.
  clear E1 E2 E3 c1 c2 c3.
  repeat match type of H with
         | (_ || _) = true => apply orb_prop in H; destruct H as [H | H]
         end;
    repeat match goal with
           | Hc : (_ && _) = true |- _ =>
               apply andb_prop in Hc; destruct Hc
           | Hc : (_ || _) = true |- _ =>
               apply orb_prop in Hc; destruct Hc
           | Hc : (_ =? _)%nat = true |- _ => apply Nat.eqb_eq in Hc; subst
           end;
    try (vm_compute; tauto).
  match goal with
  | H1 : (128 <=? n3)%nat = true, H2 : (n3 <=? 138)%nat = true |- _ =>
      apply Nat.leb_le in H1; apply Nat.leb_le in H2
  end.
  assert (Hc : (n3 = 128 \/ n3 = 129 \/ n3 = 130 \/ n3 = 131 \/ n3 = 132
                \/ n3 = 133 \/ n3 = 134 \/ n3 = 135 \/ n3 = 136
                \/ n3 = 137 \/ n3 = 138)%nat) by lia.
  repeat (destruct Hc as [-> | Hc]; [vm_compute; tauto|]).
  subst n3. vm_compute. tauto.
Qed.

Lemma blank_white_space_only (n : nat) :
  forall s, (String.length s <= n)%nat -> blank s = true -> white_space_only s.
Proof.
  induction n as [|n IH]; intros s Hlen Hb.
  - destruct s; [|simpl in Hlen; lia]. exists []. split; [constructor|reflexivity].
  - destruct s as [|c1 s1]; [exists []; split; [constructor|reflexivity]|].
    simpl in Hlen, Hb.
    destruct (is_space c1) eqn:H1.
    { destruct (IH s1 ltac:(lia) Hb) as [ws [Hws ->]].
      exists (String c1 EmptyString :: ws). split; [|reflexivity].
      constructor; [now apply is_space_white | exact Hws]. }
    destruct s1 as [|c2 s2]; [discriminate|]. simpl in Hlen.
    destruct (is_nbsp c1 c2) eqn:H2.
    { destruct (IH s2 ltac:(lia) Hb) as [ws [Hws ->]].
      exists (String c1 (String c2 EmptyString) :: ws). split; [|reflexivity].
      constructor; [now apply is_nbsp_white | exact Hws]. }
    destruct s2 as [|c3 s3]; [discriminate|]. simpl in Hlen.
    destruct (is_wide_space c1 c2 c3) eqn:H3; [|discriminate].
    destruct (IH s3 ltac:(lia) Hb) as [ws [Hws ->]].
    exists (String c1 (String c2 (String c3 EmptyString)) :: ws).
    split; [|reflexivity].
    constructor; [now apply is_wide_space_white | exact Hws].
Qed.

(** X10. [handleGenerate] returns at once, without a state update or a
    request, exactly on the prompts that [trim()] empties: every prompt
    made of JavaScript white space only (space, tab, line breaks, no-break
    space, the Unicode spaces, the byte order mark) is ignored, and no other
    prompt passes for blank. In particular a click on Generate right after
    a reset ([handleRemove]) is without effect. *)
Theorem handleGenerate_ignores_blank_prompt :
  forall (R : Type)
         (serve_generateVideos : VideoRequest -> R -> outcome Operation * R)
         (serve_getVideosOperation : Operation -> R -> outcome Operation * R)
         (http : string -> R -> outcome Response * R)
         (JSON_stringify : JsError -> string)
         (fuel : nat) (w : World (App VideoGenerator.UI R)),
    (white_space_only (VideoGenerator.prompt (ui (env w))) ->
     VideoGenerator.handleGenerate serve_generateVideos
       serve_getVideosOperation http JSON_stringify fuel w
     = Some (Ok tt, w))
    /\ (blank (VideoGenerator.prompt (ui (env w))) = true ->
        white_space_only (VideoGenerator.prompt (ui (env w))))
    /\ VideoGenerator.handleGenerate serve_generateVideos
         serve_getVideosOperation http JSON_stringify fuel
         (VideoControls.handleRemove w)
       = Some (Ok tt, VideoControls.handleRemove w).
Proof.
  intros R sgv sgvo http JSON_stringify fuel w. split; [|split].
  - intros [ws [Hws Hp]]. unfold VideoGenerator.handleGenerate.
    now rewrite Hp, blank_join.
  - intros Hb. now apply (blank_white_space_only _ _ (Nat.le_refl _)).
  - reflexivity.
Qed.

Lemma handleGenerate_ignores_blank_prompt_witness :
  VideoGenerator.handleGenerate submit_ok (job 3 finished) http_ok
    stringify_empty 5 (start spaced None)
  = Some (Ok tt, start spaced None).
Proof.
  apply (proj1 (handleGenerate_ignores_blank_prompt
                  nat submit_ok (job 3 finished) http_ok stringify_empty 5%nat
                  (start spaced None))).
  exists spaces. split; [|reflexivity].
  repeat constructor; vm_compute; tauto.
Defined.

(** X11. When the poller returns a finished operation that carries no
    link (absent or empty), [handleGenerate] downloads nothing and shows
    "Generation complete, but no video data was found." as its error. *)
Theorem handleGenerate_reports_missing_link :
  forall (R : Type)
         (serve_generateVideos : VideoRequest -> R -> outcome Operation * R)
         (serve_getVideosOperation : Operation -> R -> outcome Operation * R)
         (http : string -> R -> outcome Response * R)
         (JSON_stringify : JsError -> string)
         (fuel : nat) (w : World (App VideoGenerator.UI R))
         (op : Operation) (wa : World (App VideoGenerator.UI R))
         (result : Operation) (wc : World (App VideoGenerator.UI R)),
    blank (VideoGenerator.prompt (ui (env w))) = false ->
    VideoGenerator.submit serve_generateVideos w = (Ok op, wa) ->
    VideoGenerator.poll serve_getVideosOperation fuel op wa
    = Some (Ok result, wc) ->
    uri result = None \/ uri result = Some EmptyString ->
    JSON_stringify
      (newError "Generation complete, but no video data was found.")
    = "{}" ->
    exists w',
      VideoGenerator.handleGenerate serve_generateVideos
        serve_getVideosOperation http JSON_stringify fuel w
      = Some (Ok tt, w')
      /\ VideoGenerator.error (ui (env w'))
         = Some "Generation complete, but no video data was found."
      /\ trace w' = trace wc.
Proof.
  intros R sgv sgvo http JSON_stringify fuel w op wa result wc
         Hblank Hsubmit Hpoll Huri Hjson.
  unfold VideoGenerator.handleGenerate.
  rewrite Hblank, Hsubmit, Hpoll.
  assert (Hfatal :
    VideoGenerator.classify JSON_stringify
      (newError "Generation complete, but no video data was found.")
    = VideoGenerator.Fatal).
  { unfold VideoGenerator.classify. rewrite Hjson. reflexivity. }
  destruct Huri as [-> | ->];
    (eexists; split; [reflexivity|];
     unfold VideoGenerator.caught, VideoGenerator.handleCaught;
     rewrite Hfatal; split; reflexivity).
Qed.

Lemma handleGenerate_reports_missing_link_witness :
  exists w',
    VideoGenerator.handleGenerate submit_ok (job 1 unlinked) http_ok
      stringify_empty 5 (start (app 0%nat) None)
    = Some (Ok tt, w')
    /\ VideoGenerator.error (ui (env w'))
       = Some "Generation complete, but no video data was found."
    /\ trace w' = trace polled.
Proof.
  apply (handleGenerate_reports_missing_link
           nat submit_ok (job 1 unlinked) http_ok stringify_empty 5%nat
           (start (app 0%nat) None) pending submitted unlinked polled).
  - reflexivity.
  - vm_compute. reflexivity.
  - vm_compute. reflexivity.
  - left. reflexivity.
  - reflexivity.
Defined.

(** ** The download of the artifact, further *)

Lemma download_failed_is_not_rate_limited (reason : string) :
  includes (toLowerCase reason) "quota" = false ->
  isRateLimited (Exn (newError ("Download failed: " ++ reason))) = false.
Proof.
  intros H. unfold isRateLimited.
  change (retry_code (Exn (newError ("Download failed: " ++ reason))))
    with EmptyString.
  change (retry_status (Exn (newError ("Download failed: " ++ reason))))
    with EmptyString.
  change (retry_message (Exn (newError ("Download failed: " ++ reason))))
    with ("download failed: " ++ toLowerCase reason).
  cbn. exact H.
Qed.

(** X12. A download refused with a status outside 200-299 other than 429
    fails with "Download failed: " followed by the reason phrase, and -
    unless that phrase mentions a quota - [withRetry] rethrows it after a
    single request. *)
Theorem download_failure_is_rethrown_at_once :
  forall (R : Type) (http : string -> R -> outcome Response * R)
         (link : string) (w : World (App VideoGenerator.UI R))
         (response : Response) (s : R),
    aborted w = false ->
    http (link ++ "&key=" ++ apiKey (env w)) (remote (env w))
    = (Ok response, s) ->
    ok response = false ->
    status_code response <> 429%Z ->
    includes (toLowerCase (statusText response)) "quota" = false ->
    exists w',
      withRetry (VideoGenerator.download http link) defaultRetries w
      = (Throw (Exn (newError ("Download failed: " ++ statusText response))),
         w')
      /\ history w'
         = (history w
            ++ [EvCall; EvFetch (link ++ "&key=" ++ apiKey (env w))])%list
      /\ ui (env w') = ui (env w).
Proof.
  intros R http link w response s Ha Hhttp Hok H429 Hquota.
  unfold withRetry, defaultRetries. simpl retry_loop.
  unfold VideoGenerator.download at 1, fetch.
  change (aborted (log EvCall w)) with (aborted w). rewrite Ha.
  unfold log. cbn [env]. rewrite Hhttp, Hok.
  apply Z.eqb_neq in H429. rewrite H429. cbn [negb].
  rewrite (download_failed_is_not_rate_limited _ Hquota). cbn [andb].
  eexists. split; [reflexivity|].
  unfold history. simpl. rewrite <- app_assoc. split; reflexivity.
Qed.

Lemma download_failure_witness :
  exists w',
    withRetry (VideoGenerator.download http_404 "https://x/y?alt=media")
              defaultRetries (start (app 0%nat) None)
    = (Throw (Exn (newError "Download failed: Not Found")), w')
    /\ history w' = [EvCall; EvFetch "https://x/y?alt=media&key=KEY"]
    /\ ui (env w') = ui (env (start (app 0%nat) None)).
Proof.
  apply (download_failure_is_rethrown_at_once
           nat http_404 "https://x/y?alt=media" (start (app 0%nat) None)
           notFound 1%nat);
    try reflexivity.
  discriminate.
Defined.

(** X13. Once the token is aborted, a download issues no request: [fetch]
    rejects with an "AbortError", which [withRetry] rethrows after that
    single invocation and which the handler takes for a cancellation. *)
Theorem download_after_abort_issues_no_request :
  forall (R : Type) (http : string -> R -> outcome Response * R)
         (JSON_stringify : JsError -> string)
         (link : string) (w : World (App VideoGenerator.UI R)),
    aborted w = true ->
    withRetry (VideoGenerator.download http link) defaultRetries w
    = (Throw (Exn abortError), log EvCall w)
    /\ network_calls (log EvCall w) = network_calls w
    /\ VideoGenerator.classify JSON_stringify abortError
       = VideoGenerator.Cancelled.
Proof.
  intros R http JSON_stringify link w Ha.
  unfold withRetry, defaultRetries. simpl retry_loop.
  unfold VideoGenerator.download at 1, fetch.
  change (aborted (log EvCall w)) with (aborted w). rewrite Ha.
  repeat split; reflexivity.
Qed.

Lemma download_after_abort_witness :
  withRetry (VideoGenerator.download http_ok "https://x/y?alt=media")
            defaultRetries (start (app 0%nat) (Some 0))
  = (Throw (Exn abortError), log EvCall (start (app 0%nat) (Some 0))).
Proof.
  apply (download_after_abort_issues_no_request
           nat http_ok stringify_empty "https://x/y?alt=media"
           (start (app 0%nat) (Some 0))).
  reflexivity.
Defined.

(** ** The requests of a retried download *)

Section DownloadTrace.
Context {R : Type}.
Variable http : string -> R -> outcome Response * R.
Variable link : string.

Lemma download_events (w : World (App VideoGenerator.UI R)) :
  exists evs,
    trace (snd (VideoGenerator.download http link w)) = (evs ++ trace w)%list
    /\ Forall (download_event (link ++ "&key=" ++ apiKey (env w))) evs
    /\ apiKey (env (snd (VideoGenerator.download http link w)))
       = apiKey (env w).
Proof.
  unfold VideoGenerator.download, fetch.
  destruct (aborted w).
  - exists []. split; [reflexivity|]. split; [constructor | reflexivity].
  - unfold log. cbn [env].
    destruct (http _ _) as [[response|x] s];
      [destruct (negb (ok response));
       [destruct (status_code response =? 429)%Z|]|];
      (exists [EvFetch (link ++ "&key=" ++ apiKey (env w))];
       split; [reflexivity|]; split; [|reflexivity];
       constructor; [right; right; reflexivity | constructor]).
Qed.

Lemma retry_loop_download_events (maxRetries : nat) :
  forall (left i : nat) (lastError : thrown)
         (w : World (App VideoGenerator.UI R)),
    exists evs,
      trace (snd (retry_loop (VideoGenerator.download http link) maxRetries
                    left i lastError w))
      = (evs ++ trace w)%list
      /\ Forall (download_event (link ++ "&key=" ++ apiKey (env w))) evs.
Proof.
  induction left as [|left IH]; intros i lastError w.
  - exists []. split; [reflexivity | constructor].
  - simpl retry_loop.
    destruct (download_events (log EvCall w)) as [evs [Ht [Hall Hkey]]].
    change (env (log EvCall w)) with (env w) in Hall, Hkey.
    destruct (VideoGenerator.download http link (log EvCall w))
      as [[v|x] w1]; simpl in Ht, Hkey.
    + exists (evs ++ [EvCall])%list. split.
      * simpl. rewrite Ht. simpl. now rewrite <- app_assoc.
      * apply Forall_app. split; [exact Hall|].
        constructor; [now left | constructor].
    + destruct (isRateLimited x && (i <? maxRetries - 1)%nat).
      * simpl.
        match goal with
        | |- context [retry_loop _ _ _ _ _ ?w3] =>
            destruct (IH (S i) x w3) as [evs' [Ht' Hall']]
        end.
        simpl in Ht', Hall'. rewrite Hkey in Hall'.
        exists (evs' ++ EvSleep (waitTime i (randoms w1 (drawn w1)))
                     :: evs ++ [EvCall])%list.
        split.
        -- rewrite Ht', Ht. simpl.
           rewrite <- !app_assoc. simpl. now rewrite <- app_assoc.
        -- apply Forall_app. split; [exact Hall'|].
           constructor; [right; left; eexists; reflexivity|].
           apply Forall_app. split; [exact Hall|].
           constructor; [now left | constructor].
      * exists (evs ++ [EvCall])%list. split.
        -- simpl. rewrite Ht. simpl. now rewrite <- app_assoc.
        -- apply Forall_app. split; [exact Hall|].
           constructor; [now left | constructor].
Qed.

End DownloadTrace.

(** X14. However many times the download is retried, the only requests it
    issues are GETs of the link with "&key=" and the API key appended. *)
Theorem download_only_fetches_the_keyed_link :
  forall (R : Type) (http : string -> R -> outcome Response * R)
         (link : string) (maxRetries : nat)
         (w : World (App VideoGenerator.UI R)),
    exists evs,
      trace (snd (withRetry (VideoGenerator.download http link) maxRetries w))
      = (evs ++ trace w)%list
      /\ forall ev, In ev evs -> is_network ev = true ->
           ev = EvFetch (link ++ "&key=" ++ apiKey (env w)).
Proof.
  intros R http link maxRetries w.
  destruct (retry_loop_download_events http link maxRetries maxRetries 0
              Undefined w) as [evs [Ht Hall]].
  exists evs. split; [exact Ht|].
  intros ev Hin Hnet. rewrite Forall_forall in Hall.
  destruct (Hall ev Hin) as [-> | [[ms ->] | ->]];
    [discriminate | discriminate | reflexivity].
Qed.

(** ** The failures that ask for a new key *)

(** X15. A failure whose message mentions "requested entity was not found"
    (in any case) and which is not an abort is classified as requiring a
    key; the handler then opens the key selector when [window.aistudio]
    exists and reports "Sync complete. Please restart.", and otherwise only
    reports that a key sync is required. *)
Theorem entity_not_found_asks_for_a_key :
  forall (R : Type) (JSON_stringify : JsError -> string) (e : JsError)
         (w : World (App VideoGenerator.UI R)),
    includes (retry_message (Exn e)) "requested entity was not found" = true ->
    (name e =? "AbortError") = false ->
    VideoGenerator.classify JSON_stringify e = VideoGenerator.AuthRequired
    /\ (aistudio (env w) = true ->
        VideoGenerator.error
          (ui (env (VideoGenerator.handleCaught JSON_stringify e w)))
        = Some "Sync complete. Please restart."
        /\ trace (VideoGenerator.handleCaught JSON_stringify e w)
           = EvRequest "openSelectKey" :: trace w)
    /\ (aistudio (env w) = false ->
        VideoGenerator.error
          (ui (env (VideoGenerator.handleCaught JSON_stringify e w)))
        = Some "Key sync required. Studio authorization starting..."
        /\ trace (VideoGenerator.handleCaught JSON_stringify e w) = trace w).
Proof.
  intros R JSON_stringify e w Hmsg Hname.
  assert (Hnot : message_is e "AbortError" = false).
  { unfold message_is. destruct (message e) as [m|] eqn:Hm; [|reflexivity].
    destruct (m =? "AbortError") eqn:Heq; [|reflexivity].
    apply String.eqb_eq in Heq. subst m.
    unfold retry_message in Hmsg. simpl in Hmsg. rewrite Hm in Hmsg.
    discriminate Hmsg. }
  assert (Hclass :
    VideoGenerator.classify JSON_stringify e = VideoGenerator.AuthRequired).
  { unfold VideoGenerator.classify. rewrite Hname, Hnot. cbn [orb]. cbv zeta.
    rewrite (includes_app_r _ _ "requested entity was not found"
               (errorToString_includes e _ Hmsg)).
    reflexivity. }
  split; [exact Hclass|].
  unfold VideoGenerator.handleCaught. rewrite Hclass.
  split; intros Hai; cbn [aistudio env VideoGenerator.setError update_ui
                          set_env set_ui];
    rewrite Hai; split; reflexivity.
Qed.

Lemma entity_not_found_witness :
  VideoGenerator.classify stringify_empty
    (newError "The requested entity was not found.")
  = VideoGenerator.AuthRequired.
Proof.
  apply (entity_not_found_asks_for_a_key
           nat stringify_empty
           (newError "The requested entity was not found.")
           (start (app 0%nat) None));
    reflexivity.
Defined.

(** ** The image enhancement *)

Lemma firstInlineData_skips_text (texts : list string) (data mimeType : string)
      (rest : list Part) :
  ImageService.firstInlineData
    (map Text texts ++ InlineData data mimeType :: rest)
  = Some ("data:" ++ mimeType ++ ";base64," ++ data).
Proof.
  induction texts as [|t texts IH]; [reflexivity | exact IH].
Qed.

Lemma firstInlineData_text_only (texts : list string) :
  ImageService.firstInlineData (map Text texts) = None.
Proof.
  induction texts as [|t texts IH]; [reflexivity | exact IH].
Qed.

(** X16. When the image model answers, [enhanceImage] settles after that
    single request: with the data URL of the first part that carries an
    image (the text parts before it are skipped, the parts after it
    ignored), with "No image data returned from model" when every part is
    text, and with "No response content from studio engine." when the
    answer has no parts. *)
Theorem enhanceImage_returns_first_image :
  forall (E : Type)
         (generateContent :
            string -> list Part -> action E ImageService.ImageResponse)
         (base64 : string) (mode : ImageService.Mode) (prompt : option string)
         (w : World E) (response : ImageService.ImageResponse) (w1 : World E),
    generateContent "gemini-2.5-flash-image"
      [InlineData base64 "image/png";
       Text (ImageService.instruction mode prompt)]
      (log EvCall w)
    = (Ok response, w1) ->
    (forall texts data mimeType rest,
        ImageService.candidate_parts response
        = Some (map Text texts ++ InlineData data mimeType :: rest)%list ->
        ImageService.enhanceImage generateContent base64 mode prompt w
        = (Ok ("data:" ++ mimeType ++ ";base64," ++ data), w1))
    /\ (forall texts,
          ImageService.candidate_parts response = Some (map Text texts) ->
          ImageService.enhanceImage generateContent base64 mode prompt w
          = (Throw (Exn (newError "No image data returned from model")), w1))
    /\ (ImageService.candidate_parts response = None ->
        ImageService.enhanceImage generateContent base64 mode prompt w
        = (Throw (Exn (newError "No response content from studio engine.")),
           w1)).
Proof.
  intros E generateContent base64 mode prompt w response w1 Hgen.
  assert (Hrun :
    ImageService.enhanceImage generateContent base64 mode prompt w
    = match ImageService.candidate_parts response with
      | None =>
          (Throw (Exn (newError "No response content from studio engine.")),
           w1)
      | Some parts =>
          match ImageService.firstInlineData parts with
          | Some url => (Ok url, w1)
          | None =>
              (Throw (Exn (newError "No image data returned from model")), w1)
          end
      end).
  { unfold ImageService.enhanceImage, withRetry, defaultRetries.
    simpl retry_loop. unfold ImageService.enhanceOnce at 1. rewrite Hgen.
    destruct (ImageService.candidate_parts response) as [parts|];
      [|reflexivity].
    destruct (ImageService.firstInlineData parts); reflexivity. }
  rewrite Hrun. repeat split.
  - intros texts data mimeType rest Hparts.
    now rewrite Hparts, firstInlineData_skips_text.
  - intros texts Hparts. now rewrite Hparts, firstInlineData_text_only.
  - intros Hparts. now rewrite Hparts.
Qed.

Lemma enhanceImage_returns_first_image_witness :
  ImageService.enhanceImage paints "AAAA" ImageService.auto None
                            (start 0%nat None)
  = (Ok "data:image/png;base64,QUJD", log EvCall (start 0%nat None)).
Proof.
  apply (proj1 (enhanceImage_returns_first_image
                  nat paints "AAAA" ImageService.auto None (start 0%nat None)
                  image_answer (log EvCall (start 0%nat None)) eq_refl)
           ["Here is your image."] "QUJD" "image/png" []).
  reflexivity.
Defined.

(** ** The studio: estimate and handler *)

Lemma studio_tick_below_100 (prev r : Q) :
  unit_interval r -> prev < 100 -> Studio.tick prev r < 100.
Proof.
  intros [Hr0 Hr1] Hp. unfold Studio.tick.
  destruct (Qlt_bool prev 95) eqn:H95; [|exact Hp].
  apply Qlt_bool_true in H95. lra.
Qed.

Lemma studio_ticks_below_100 (rs : list Q) :
  Forall unit_interval rs ->
  forall p, p < 100 -> Studio.ticks rs p < 100.
Proof.
  induction 1 as [|r rs Hr _ IH]; intros p Hp; [exact Hp|].
  simpl. apply IH. now apply studio_tick_below_100.
Qed.

(** X17. The estimate of the studio, ticked from 0, never decreases and
    stays below 100; from 95 on a tick leaves it unchanged. *)
Theorem studio_progress_is_monotone_below_100 :
  forall (rs : list Q) (r : Q),
    Forall unit_interval rs ->
    unit_interval r ->
    Studio.ticks rs 0 <= Studio.ticks (rs ++ [r]) 0
    /\ Studio.ticks (rs ++ [r]) 0 < 100
    /\ (95 <= Studio.ticks rs 0 ->
        Studio.ticks (rs ++ [r]) 0 = Studio.ticks rs 0).
Proof.
  intros rs r Hrs Hr.
  assert (Hlast : Studio.ticks (rs ++ [r]) 0
                  = Studio.tick (Studio.ticks rs 0) r)
    by (unfold Studio.ticks; now rewrite fold_left_app).
  assert (Hlt : Studio.ticks rs 0 < 100)
    by (apply studio_ticks_below_100; [exact Hrs | reflexivity]).
  rewrite Hlast. split; [|split].
  - unfold Studio.tick. destruct Hr as [Hr0 Hr1].
    destruct (Qlt_bool (Studio.ticks rs 0) 95); lra.
  - now apply studio_tick_below_100.
  - intros H95. unfold Studio.tick.
    destruct (Qlt_bool (Studio.ticks rs 0) 95) eqn:Hb; [|reflexivity].
    apply Qlt_bool_true in Hb. lra.
Qed.

Lemma studio_progress_witness :
  Studio.ticks [1 # 2; 1 # 2] 0 <= Studio.ticks [1 # 2; 1 # 2; 1 # 2] 0
  /\ Studio.ticks [1 # 2; 1 # 2; 1 # 2] 0 < 100.
Proof.
  destruct (studio_progress_is_monotone_below_100 [1 # 2; 1 # 2] (1 # 2))
    as [Hle [Hlt _]].
  - repeat constructor; discriminate.
  - split; [discriminate | reflexivity].
  - split; [exact Hle | exact Hlt].
Defined.

(** X18. In the studio, a cancellation that the poller reports is not taken
    for one: the [catch] block of [handleRemedy] looks at the name of the
    failure only, the failure of the poller is a plain [Error] whose message
    is "AbortError", and so the user is shown the alert "Error: AbortError".
    The run still ends with [loading] false and no result. *)
Theorem handleRemedy_alerts_on_poller_abort :
  forall (R : Type)
         (serve_generateVideos : VideoRequest -> R -> outcome Operation * R)
         (serve_getVideosOperation : Operation -> R -> outcome Operation * R)
         (serve_generateContent :
            string -> list Part -> R
            -> outcome ImageService.ImageResponse * R)
         (http : string -> R -> outcome Response * R)
         (fileToBase64 : Studio.File -> outcome string)
         (mode : ImageService.Mode) (fuel : nat)
         (w : World (App Studio.UI R)) (f : Studio.File)
         (op : Operation) (w1 : World (App Studio.UI R)),
    Studio.file (ui (env w)) = Some f ->
    Studio.fileType (ui (env w)) = Studio.video ->
    remedyVideo (Studio.generateVideos serve_generateVideos)
      (Studio.prompt (ui (env w)))
      (Studio.setActiveMode (Some Studio.mode_video)
         (Studio.setLoading true w))
    = (Ok op, w1) ->
    done op = false ->
    aborted w1 = true ->
    exists w',
      Studio.handleRemedy serve_generateVideos serve_getVideosOperation
        serve_generateContent http fileToBase64 mode (S fuel) w
      = Some (Ok tt, w')
      /\ Studio.alerts (ui (env w'))
         = "Error: AbortError" :: Studio.alerts (ui (env w1))
      /\ Studio.loading (ui (env w')) = false
      /\ Studio.result (ui (env w')) = Studio.result (ui (env w1))
      /\ trace w' = trace w1.
Proof.
  intros R sgv sgvo sgc http fileToBase64 mode fuel w f op w1
         Hfile Htype Hsubmit Hd Ha.
  unfold Studio.handleRemedy. rewrite Hfile, Htype, Hsubmit.
  simpl pollOperation. rewrite Hd, Ha.
  eexists. split; [reflexivity|]. repeat split.
Qed.

(** X19. In the studio, a finished operation without a link makes
    [handleRemedy] set the progress to 100 although nothing was downloaded:
    no request is issued, no result is set and no alert is shown. *)
Theorem handleRemedy_completes_without_link :
  forall (R : Type)
         (serve_generateVideos : VideoRequest -> R -> outcome Operation * R)
         (serve_getVideosOperation : Operation -> R -> outcome Operation * R)
         (serve_generateContent :
            string -> list Part -> R
            -> outcome ImageService.ImageResponse * R)
         (http : string -> R -> outcome Response * R)
         (fileToBase64 : Studio.File -> outcome string)
         (mode : ImageService.Mode) (fuel : nat)
         (w : World (App Studio.UI R)) (f : Studio.File)
         (op : Operation) (w1 : World (App Studio.UI R))
         (resultOp : Operation) (w2 : World (App Studio.UI R)),
    Studio.file (ui (env w)) = Some f ->
    Studio.fileType (ui (env w)) = Studio.video ->
    remedyVideo (Studio.generateVideos serve_generateVideos)
      (Studio.prompt (ui (env w)))
      (Studio.setActiveMode (Some Studio.mode_video)
         (Studio.setLoading true w))
    = (Ok op, w1) ->
    pollOperation (Studio.getVideosOperation serve_getVideosOperation)
      fuel op w1
    = Some (Ok resultOp, w2) ->
    uri resultOp = None \/ uri resultOp = Some EmptyString ->
    exists w',
      Studio.handleRemedy serve_generateVideos serve_getVideosOperation
        serve_generateContent http fileToBase64 mode fuel w
      = Some (Ok tt, w')
      /\ Studio.progress (ui (env w')) = 100
      /\ Studio.result (ui (env w')) = Studio.result (ui (env w2))
      /\ Studio.alerts (ui (env w')) = Studio.alerts (ui (env w2))
      /\ trace w' = EvProgress 100 :: trace w2.
Proof.
  intros R sgv sgvo sgc http fileToBase64 mode fuel w f op w1 resultOp w2
         Hfile Htype Hsubmit Hpoll Huri.
  unfold Studio.handleRemedy. rewrite Hfile, Htype, Hsubmit, Hpoll.
  destruct Huri as [-> | ->];
    (eexists; split; [reflexivity|]; repeat split).
Qed.

Lemma handleRemedy_alerts_witness :
  exists w',
    Studio.handleRemedy submit_ok (job 3 finished) no_image http_ok encode
      ImageService.remedy 5 (start studio (Some 0))
    = Some (Ok tt, w')
    /\ Studio.alerts (ui (env w')) = ["Error: AbortError"]
    /\ Studio.loading (ui (env w')) = false.
Proof.
  destruct (handleRemedy_alerts_on_poller_abort
              nat submit_ok (job 3 finished) no_image http_ok encode
              ImageService.remedy 4%nat (start studio (Some 0)) clip pending
              (remedied (Some 0)))
    as [w' [Hrun [Halert [Hload _]]]]; try reflexivity.
  exists w'. split; [exact Hrun|]. split; [exact Halert | exact Hload].
Defined.

Lemma handleRemedy_completes_witness :
  exists w',
    Studio.handleRemedy submit_ok (job 1 unlinked) no_image http_ok encode
      ImageService.remedy 5 (start studio None)
    = Some (Ok tt, w')
    /\ Studio.progress (ui (env w')) = 100
    /\ Studio.result (ui (env w')) = None.
Proof.
  destruct (handleRemedy_completes_without_link
              nat submit_ok (job 1 unlinked) no_image http_ok encode
              ImageService.remedy 5%nat (start studio None) clip pending
              (remedied None) unlinked remedy_polled)
    as [w' [Hrun [Hp [Hr _]]]]; try reflexivity.
  - left. reflexivity.
  - exists w'. split; [exact Hrun|]. split; [exact Hp | exact Hr].
Defined.

(** ** The list of clips of the montage tool *)

Lemma remove_unique_clip (id : string) (l : list MontageTool.ClipItem) :
  NoDup (map MontageTool.clip_id l) ->
  In id (map MontageTool.clip_id l) ->
  S (length (filter (fun c => negb (MontageTool.clip_id c =? id)) l))
  = length l.
Proof.
  induction l as [|c l IH]; intros Hnd Hin; [destruct Hin|].
  simpl in Hnd, Hin. inversion Hnd as [|? ? Hnotin Hnd']; subst.
  simpl. destruct (MontageTool.clip_id c =? id) eqn:Heq; simpl.
  - apply String.eqb_eq in Heq. subst id. f_equal.
    clear IH Hin Hnd Hnd'.
    induction l as [|d l IHl]; [reflexivity|].
    simpl in Hnotin. simpl.
    destruct (MontageTool.clip_id d =? MontageTool.clip_id c) eqn:Hd.
    + apply String.eqb_eq in Hd. exfalso. apply Hnotin. now left.
    + simpl. f_equal. apply IHl. intros H. apply Hnotin. now right.
  - f_equal. apply IH; [exact Hnd'|].
    destruct Hin as [Hc | Hin]; [|exact Hin].
    apply String.eqb_neq in Heq. congruence.
Qed.

(** X20. [handleRemoveClip(id)] removes the clips whose id is [id] and no
    other: no clip with that id is left, every other clip is kept, and when
    the ids are distinct and [id] is one of them the list loses exactly one
    clip; the rest of the state is untouched. *)
Theorem handleRemoveClip_removes_exactly_that_clip :
  forall (id : string) (u : MontageTool.UI),
    (forall c, In c (MontageTool.clips (MontageTool.handleRemoveClip id u)) ->
               MontageTool.clip_id c <> id)
    /\ (forall c, MontageTool.clip_id c <> id ->
          (In c (MontageTool.clips u)
           <-> In c (MontageTool.clips (MontageTool.handleRemoveClip id u))))
    /\ (NoDup (map MontageTool.clip_id (MontageTool.clips u)) ->
        In id (map MontageTool.clip_id (MontageTool.clips u)) ->
        S (length (MontageTool.clips (MontageTool.handleRemoveClip id u)))
        = length (MontageTool.clips u))
    /\ MontageTool.analysis (MontageTool.handleRemoveClip id u)
       = MontageTool.analysis u
    /\ MontageTool.resultVideo (MontageTool.handleRemoveClip id u)
       = MontageTool.resultVideo u.
Proof.
  intros id u. simpl. repeat split.
  - intros c Hin. apply filter_In in Hin. destruct Hin as [_ Hneq].
    apply negb_true_iff in Hneq. now apply String.eqb_neq.
  - intros Hin. apply filter_In. split; [exact Hin|].
    apply negb_true_iff. now apply String.eqb_neq.
  - intros Hin. apply filter_In in Hin. tauto.
  - apply remove_unique_clip.
Qed.

Lemma handleRemoveClip_witness :
  S (length (MontageTool.clips (MontageTool.handleRemoveClip "a1" timeline)))
  = length (MontageTool.clips timeline).
Proof.
  apply (handleRemoveClip_removes_exactly_that_clip "a1" timeline).
  - repeat constructor; simpl; intuition discriminate.
  - left. reflexivity.
Defined.

(** ** Cancellation and success, end to end *)

(** X21. In the video generator, when the token is aborted as the polling
    starts, the run ends as a cancellation: no poll, no download and no
    progress update are made after the submission, and no error is shown
    (the error field is left as the submission left it). *)
Theorem handleGenerate_cancelled_while_polling :
  forall (R : Type)
         (serve_generateVideos : VideoRequest -> R -> outcome Operation * R)
         (serve_getVideosOperation : Operation -> R -> outcome Operation * R)
         (http : string -> R -> outcome Response * R)
         (JSON_stringify : JsError -> string)
         (fuel : nat) (w : World (App VideoGenerator.UI R))
         (op : Operation) (wa : World (App VideoGenerator.UI R)),
    blank (VideoGenerator.prompt (ui (env w))) = false ->
    VideoGenerator.submit serve_generateVideos w = (Ok op, wa) ->
    done op = false ->
    aborted wa = true ->
    exists w',
      VideoGenerator.handleGenerate serve_generateVideos
        serve_getVideosOperation http JSON_stringify (S fuel) w
      = Some (Ok tt, w')
      /\ trace w' = trace wa
      /\ VideoGenerator.error (ui (env w')) = VideoGenerator.error (ui (env wa))
      /\ VideoGenerator.videoUrl (ui (env w'))
         = VideoGenerator.videoUrl (ui (env wa))
      /\ VideoGenerator.isGenerating (ui (env w')) = false.
Proof.
  intros R sgv sgvo http JSON_stringify fuel w op wa Hblank Hsubmit Hd Ha.
  unfold VideoGenerator.handleGenerate. rewrite Hblank, Hsubmit.
  unfold VideoGenerator.poll. simpl pollOperation. rewrite Hd.
  change (aborted (VideoGenerator.setStatusMessage "Synthesizing..." wa))
    with (aborted wa).
  rewrite Ha.
  eexists. split; [reflexivity|]. repeat split.
Qed.

Lemma handleGenerate_cancelled_witness :
  exists w',
    VideoGenerator.handleGenerate submit_ok (job 3 finished) http_ok
      stringify_empty 5 (start (app 0%nat) (Some 0))
    = Some (Ok tt, w')
    /\ VideoGenerator.error (ui (env w')) = None
    /\ network_calls w' = 1%nat.
Proof.
  destruct (handleGenerate_cancelled_while_polling
              nat submit_ok (job 3 finished) http_ok stringify_empty 4%nat
              (start (app 0%nat) (Some 0)) pending
              (snd (VideoGenerator.submit submit_ok
                      (start (app 0%nat) (Some 0)))))
    as [w' [Hrun [Ht [He _]]]]; try reflexivity.
  exists w'. split; [exact Hrun|]. split.
  - rewrite He. reflexivity.
  - unfold network_calls. rewrite Ht. reflexivity.
Defined.

Lemma enhanceImage_settles {E : Type}
      (generateContent :
         string -> list Part -> action E ImageService.ImageResponse)
      (base64 : string) (mode : ImageService.Mode) (prompt : option string)
      (w : World E) (response : ImageService.ImageResponse) (w1 : World E) :
  generateContent "gemini-2.5-flash-image"
    [InlineData base64 "image/png";
     Text (ImageService.instruction mode prompt)]
    (log EvCall w)
  = (Ok response, w1) ->
  ImageService.enhanceImage generateContent base64 mode prompt w
  = match ImageService.candidate_parts response with
    | None =>
        (Throw (Exn (newError "No response content from studio engine.")), w1)
    | Some parts =>
        match ImageService.firstInlineData parts with
        | Some url => (Ok url, w1)
        | None =>
            (Throw (Exn (newError "No image data returned from model")), w1)
        end
    end.
Proof.
  intros Hgen.
  unfold ImageService.enhanceImage, withRetry, defaultRetries.
  simpl retry_loop. unfold ImageService.enhanceOnce at 1. rewrite Hgen.
  destruct (ImageService.candidate_parts response) as [parts|];
    [|reflexivity].
  destruct (ImageService.firstInlineData parts); reflexivity.
Qed.

(** X22. In the studio, on a picture and with the token not aborted, when
    the image model answers with an image, [handleRemedy] issues that single
    request, stores the data URL of the image as its result, sets the
    progress to 100 and ends with [loading] false and no alert added. *)
Theorem handleRemedy_stores_enhanced_image :
  forall (R : Type)
         (serve_generateVideos : VideoRequest -> R -> outcome Operation * R)
         (serve_getVideosOperation : Operation -> R -> outcome Operation * R)
         (serve_generateContent :
            string -> list Part -> R
            -> outcome ImageService.ImageResponse * R)
         (http : string -> R -> outcome Response * R)
         (fileToBase64 : Studio.File -> outcome string)
         (mode : ImageService.Mode) (fuel : nat)
         (w : World (App Studio.UI R)) (f : Studio.File) (base64 : string)
         (response : ImageService.ImageResponse) (s : R)
         (texts : list string) (data mimeType : string) (rest : list Part),
    Studio.file (ui (env w)) = Some f ->
    Studio.fileType (ui (env w)) = Studio.image ->
    fileToBase64 f = Ok base64 ->
    aborted w = false ->
    serve_generateContent "gemini-2.5-flash-image"
      [InlineData base64 "image/png";
       Text (ImageService.instruction mode (Some (Studio.prompt (ui (env w)))))]
      (remote (env w))
    = (Ok response, s) ->
    ImageService.candidate_parts response
    = Some (map Text texts ++ InlineData data mimeType :: rest)%list ->
    exists w',
      Studio.handleRemedy serve_generateVideos serve_getVideosOperation
        serve_generateContent http fileToBase64 mode fuel w
      = Some (Ok tt, w')
      /\ Studio.result (ui (env w'))
         = Some ("data:" ++ mimeType ++ ";base64," ++ data)
      /\ Studio.progress (ui (env w')) = 100
      /\ Studio.loading (ui (env w')) = false
      /\ Studio.alerts (ui (env w')) = Studio.alerts (ui (env w))
      /\ history w'
         = (history w
            ++ [EvCall; EvRequest "generateContent"; EvProgress 100])%list.
Proof.
  intros R sgv sgvo sgc http fileToBase64 mode fuel w f base64 response s
         texts data mimeType rest Hfile Htype Hb64 Ha Hserve Hparts.
  unfold Studio.handleRemedy. rewrite Hfile, Htype, Hb64.
  match goal with
  | |- context [if aborted ?w0 then _ else _] =>
      change (aborted w0) with (aborted w)
  end.
  rewrite Ha.
  match goal with
  | |- context [ImageService.enhanceImage ?g base64 mode ?p ?w0] =>
      rewrite (enhanceImage_settles g base64 mode p w0 response
                 (set_env
                    (set_remote s
                       (env (log (EvRequest "generateContent")
                               (log EvCall w0))))
                    (log (EvRequest "generateContent") (log EvCall w0))))
  end.
  2:{ unfold Studio.generateContent, remote_call. cbn [env log remote].
      unfold Studio.setActiveMode, Studio.setLoading, update_ui, set_env,
        set_ui.
      cbn [env remote ui]. now rewrite Hserve. }
  rewrite Hparts, firstInlineData_skips_text.
  match goal with
  | |- context [if aborted ?w1 then _ else _] =>
      change (aborted w1) with (aborted w)
  end.
  rewrite Ha.
  eexists. split; [reflexivity|].
  unfold history. simpl. rewrite <- !app_assoc. repeat split.
Qed.

Lemma handleRemedy_stores_enhanced_image_witness :
  exists w',
    Studio.handleRemedy submit_ok (job 3 finished) serve_image http_ok encode
      ImageService.auto 5 (start gallery None)
    = Some (Ok tt, w')
    /\ Studio.result (ui (env w')) = Some "data:image/png;base64,QUJD"
    /\ Studio.progress (ui (env w')) = 100.
Proof.
  destruct (handleRemedy_stores_enhanced_image
              nat submit_ok (job 3 finished) serve_image http_ok encode
              ImageService.auto 5%nat (start gallery None) picture "AAAA"
              image_answer 1%nat ["Here is your image."] "QUJD" "image/png" [])
    as [w' [Hrun [Hres [Hp _]]]]; try reflexivity.
  exists w'. split; [exact Hrun|]. split; [exact Hres | exact Hp].
Defined.

(** ** The montage analysis: the parsed answer *)

(** X23. When the model answers with a non-empty text that [JSON.parse]
    accepts as an array of segments, [analyzeVideoForMontage] returns the
    parsed segments after that single request. The request carries one
    inline part per clip, in the order of the clips, followed by the
    instruction as its last part, and nothing else. *)
Theorem analyzeVideoForMontage_returns_parsed_segments :
  forall (E : Type)
         (generateContent : string -> list Part -> action E ContentResponse)
         (JSON_parse : string -> option (list MontageSegment))
         (clips : list (string * string))
         (w : World E) (response : ContentResponse) (w1 : World E)
         (c : ascii) (s : string) (segments : list MontageSegment),
    generateContent "gemini-3-pro-preview" (montageContents clips)
                    (log EvCall w)
    = (Ok response, w1) ->
    response_text response = Some (String c s) ->
    JSON_parse (String c s) = Some segments ->
    analyzeVideoForMontage generateContent JSON_parse clips w
    = (Ok segments, w1)
    /\ length (montageContents clips) = S (length clips)
    /\ (forall n data mimeType,
          nth_error clips n = Some (data, mimeType) ->
          nth_error (montageContents clips) n
          = Some (InlineData data mimeType))
    /\ nth_error (montageContents clips) (length clips)
       = Some (Text "Analyze these video clips and identify cinematic highlights. Return a list of segments with start_timestamp, end_timestamp, and visual_description in JSON format.").
Proof.
  intros E generateContent JSON_parse clips w response w1 c s segments
         Hgen Htext Hparse.
  split; [|split; [|split]].
  - unfold analyzeVideoForMontage, withRetry, defaultRetries.
    simpl retry_loop. unfold analyzeOnce at 1.
    rewrite Hgen, Htext. simpl str_or. now rewrite Hparse.
  - unfold montageContents. rewrite length_app, length_map. simpl. lia.
  - intros n data mimeType Hn. unfold montageContents.
    assert (Hlt : (n < length clips)%nat)
      by (apply nth_error_Some; congruence).
    rewrite nth_error_app1 by (now rewrite length_map).
    rewrite nth_error_map, Hn. reflexivity.
  - unfold montageContents.
    rewrite nth_error_app2 by (rewrite length_map; lia).
    rewrite length_map, Nat.sub_diag. reflexivity.
Qed.

Lemma analyzeVideoForMontage_returns_parsed_witness :
  analyzeVideoForMontage (answers (Some "[highlight]")) parse_highlight
                         [("AAAA", "video/mp4")] (start 0%nat None)
  = (Ok [highlight], log EvCall (start 0%nat None)).
Proof.
  apply (analyzeVideoForMontage_returns_parsed_segments
           nat (answers (Some "[highlight]")) parse_highlight
           [("AAAA", "video/mp4")] (start 0%nat None)
           {| response_text := Some "[highlight]" |}
           (log EvCall (start 0%nat None))
           "["%char "highlight]" [highlight]);
    reflexivity.
Defined.

(** ** The download of the studio *)

(** X24. The download of the studio does not look at the status of the
    response: whatever the server answers - a 429 or a 404 as well as a
    200 - [withRetry] settles after that single request with the body of
    the response, which the handler then presents as the repaired video. *)
Theorem studio_download_accepts_any_status :
  forall (U R : Type) (http : string -> R -> outcome Response * R)
         (link : string) (w : World (App U R)) (response : Response) (s : R),
    aborted w = false ->
    http (link ++ "&key=" ++ apiKey (env w)) (remote (env w))
    = (Ok response, s) ->
    exists w',
      withRetry (ImageEnhancer.download http link) defaultRetries w
      = (Ok (body response), w')
      /\ history w'
         = (history w
            ++ [EvCall; EvFetch (link ++ "&key=" ++ apiKey (env w))])%list
      /\ remote (env w') = s.
Proof.
  intros U R http link w response s Ha Hhttp.
  unfold withRetry, defaultRetries. simpl retry_loop.
  unfold ImageEnhancer.download at 1, fetch.
  change (aborted (log EvCall w)) with (aborted w). rewrite Ha.
  unfold log. cbn [env]. rewrite Hhttp.
  eexists. split; [reflexivity|].
  unfold history. simpl. rewrite <- app_assoc. split; reflexivity.
Qed.

Lemma studio_download_witness :
  exists w',
    withRetry (ImageEnhancer.download http_404 "https://x/y")
              defaultRetries (start studio None)
    = (Ok "missing", w')
    /\ history w' = [EvCall; EvFetch "https://x/y&key=KEY"]
    /\ remote (env w') = 1%nat.
Proof.
  apply (studio_download_accepts_any_status
           Studio.UI nat http_404 "https://x/y" (start studio None)
           notFound 1%nat);
    reflexivity.
Defined.

Lemma download_only_fetches_witness :
  exists evs,
    trace (snd (withRetry
                  (VideoGenerator.download http_403_then_ok
                     "https://x/y?alt=media")
                  7 (start (app 0%nat) None)))
    = (evs ++ [])%list
    /\ forall ev, In ev evs -> is_network ev = true ->
         ev = EvFetch "https://x/y?alt=media&key=KEY".
Proof.
  exact (download_only_fetches_the_keyed_link
           nat http_403_then_ok "https://x/y?alt=media" 7%nat
           (start (app 0%nat) None)).
Defined.

(** The guard of [handleGenerate] on some prompts. *)
Example blank_examples :
  blank (bytes [194; 160]%nat) = true
  /\ blank (bytes [239; 187; 191; 32; 10]%nat) = true
  /\ blank " a " = false
  /\ blank (bytes [194; 161]%nat) = false
  /\ blank EmptyString = true.
Proof. repeat split; reflexivity. Qed.
